(** * lkml-to-mbox: a shallow embedding of [lkml-to-mbox.py]

    The script walks a git history that stores one mail message per commit
    (file [m]) and appends every message, preceded by a synthesized mbox
    envelope line, to the file [mbox].

    Text is modelled as byte strings ([string]); the file system as a finite
    map from paths to contents; the functions of Python's standard library
    that the script calls ([email.utils.parsedate_tz], [int], ...) are the
    fields of the class [Runtime]; exceptions are values of [exn] threaded
    through a state-and-error monad over the [World]. *)

From Stdlib Require Import Ascii ZArith.
From stdpp Require Import gmap strings list fin_maps pretty.

Local Open Scope Z_scope.

(** ** Exceptions and results *)

(** The Python exceptions that can reach the top level of the script. *)
Inductive exn : Type :=
| TypeError
| ValueError
| IndexError
| FileNotFoundError (path : string)
| SystemExit (code : Z)
| Exception (msg : string)
| LibraryError (what : string).

Inductive result (A : Type) : Type :=
| Ok (a : A)
| Raise (e : exn).
Arguments Ok {A} a.
Arguments Raise {A} e.

Definition result_bind {A B} (r : result A) (k : A → result B) : result B :=
  match r with
  | Ok a => k a
  | Raise e => Raise e
  end.

Definition result_map {A B} (f : A → B) (r : result A) : result B :=
  result_bind r (λ a, Ok (f a)).

(** ** Strings *)

Module Str.

(** [c in s] of Python, for a single character [c]. *)
Fixpoint mem (c : ascii) (s : string) : bool :=
  match s with
  | EmptyString => false
  | String c' s' => if Ascii.eqb c c' then true else mem c s'
  end.

(** [str.lower] on the ASCII letters. *)
Definition lower_ascii (c : ascii) : ascii :=
  let n := nat_of_ascii c in
  if ((65 <=? n) && (n <=? 90))%nat then ascii_of_nat (n + 32) else c.

Fixpoint lower (s : string) : string :=
  match s with
  | EmptyString => EmptyString
  | String c s' => String (lower_ascii c) (lower s')
  end.

(** Truth value of a Python string: the empty string is falsy. *)
Definition truthy (s : string) : bool :=
  match s with
  | EmptyString => false
  | String _ _ => true
  end.

(** [s1] is an initial segment of [s2]. *)
Definition prefix_of (s1 s2 : string) : Prop := ∃ t, s2 = s1 +:+ t.

(** [''.join(l)]. *)
Fixpoint concat (l : list string) : string :=
  match l with
  | [] => ""
  | s :: l' => s +:+ concat l'
  end.

(** [s.endswith(t)]: some suffix of [s] is [t]. *)
Fixpoint ends_with (t s : string) : bool :=
  if String.eqb s t then true
  else match s with
       | EmptyString => false
       | String _ s' => ends_with t s'
       end.

(** [s.rjust(n)]: spaces on the left up to width [n]. *)
Fixpoint spaces (n : nat) : string :=
  match n with
  | O => ""
  | S n' => String " " (spaces n')
  end.

Definition rjust (n : nat) (s : string) : string :=
  spaces (n - String.length s) +:+ s.

End Str.

(** Line feed, the one character that [.] does not match. *)
Definition LF : ascii := "010"%char.
Definition nl : string := String LF "".

(** ** A fragment of Python's [re]

    Line 54 calls [re.sub(r'.*<|>.*', '', from_line)].  The fragment below
    has what that pattern uses: literal characters, the greedy [.*] (where
    [.] matches every character but a line feed) and alternation at the top
    level, tried from left to right by a backtracking matcher. *)
Module Re.

Inductive atom : Type :=
| Lit (c : ascii)
| DotStar.

Definition pattern : Type := list (list atom).

(** [match_here p s]: the length of the match of the sequence [p] at the
    start of [s] that the backtracking matcher finds first, if any. *)
Fixpoint match_here (p : list atom) (s : string) {struct p} : option nat :=
  match p with
  | [] => Some 0%nat
  | Lit c :: p' =>
      match s with
      | String c' s' => if Ascii.eqb c c' then S <$> match_here p' s' else None
      | EmptyString => None
      end
  | DotStar :: p' =>
      (fix star (s : string) : option nat :=
         match s with
         | String c s' =>
             if Ascii.eqb c LF then match_here p' s
             else match star s' with
                  | Some n => Some (S n)
                  | None => match_here p' s
                  end
         | EmptyString => match_here p' s
         end) s
  end.

(** Alternatives are tried in the order they are written. *)
Fixpoint match_alt (pat : pattern) (s : string) : option nat :=
  match pat with
  | [] => None
  | p :: pat' =>
      match match_here p s with
      | Some n => Some n
      | None => match_alt pat' s
      end
  end.

(** [re.sub(pat, '', s)]: scanning from the left, every match is deleted
    and the scan resumes right after it; [skip] counts the characters of
    the current match that are still to be dropped.  A match of length 0
    deletes nothing. *)
Fixpoint sub_go (pat : pattern) (skip : nat) (s : string) : string :=
  match s with
  | EmptyString => EmptyString
  | String c s' =>
      match skip with
      | S k => sub_go pat k s'
      | O =>
          match match_alt pat s with
          | Some (S n) => sub_go pat n s'
          | _ => String c (sub_go pat 0 s')
          end
      end
  end.

Definition sub_empty (pat : pattern) (s : string) : string := sub_go pat 0 s.

End Re.

(** The pattern [r'.*<|>.*'] of line 54. *)
Definition address_pattern : Re.pattern :=
  [ [Re.DotStar; Re.Lit "<"%char]; [Re.Lit ">"%char; Re.DotStar] ].

(** ** Messages *)

(** A parsed message ([email.message.Message]): the header fields in the
    order of the file, with duplicates, and the body text. *)
Record Message : Type := {
  headers : list (string * string);
  payload : string
}.

(** [Message.get(name)]: the value of the first field whose name equals
    [name] up to case, [None] when there is none. *)
Fixpoint get_header (name : string) (hs : list (string * string)) : option string :=
  match hs with
  | [] => None
  | (k, v) :: hs' =>
      if String.eqb (Str.lower k) (Str.lower name) then Some v
      else get_header name hs'
  end.

Definition msg_get (msg : Message) (name : string) : option string :=
  get_header name (headers msg).

(** [x = msg.get(name); if not x: x = dflt]: both [None] and the empty
    string are falsy. *)
Definition or_default (x : option string) (dflt : string) : string :=
  match x with
  | Some v => if Str.truthy v then v else dflt
  | None => dflt
  end.

(** ** The standard library as the script sees it *)

(** The 10-tuple returned by [email.utils.parsedate_tz]; its entries 6, 7
    and 8 are the constants 0, 1 and -1. *)
Record date_tuple : Type := {
  dt_year : Z; dt_month : Z; dt_day : Z;
  dt_hour : Z; dt_minute : Z; dt_second : Z;
  dt_tzoffset : option Z
}.

(** How a command that fails ends, as [subprocess.call] reports it: an
    exit code from 1 upward, or the negated number of the signal that
    killed it.  Either way the status is not 0. *)
Inductive failure_status : Type :=
| ExitCode (code : positive)
| Killed (signal : positive).

Definition status_of (f : failure_status) : Z :=
  match f with
  | ExitCode code => Z.pos code
  | Killed signal => Z.neg signal
  end.

(** The library functions the script calls, taken as they are specified:
    - [parsedate_tz]: [email.utils.parsedate_tz], [None] for a string that
      is not a date;
    - [mktime_tz]: [email.utils.mktime_tz] on a tuple;
    - [fromtimestamp_ctime]: [datetime.datetime.fromtimestamp(t).ctime()],
      in the local time zone of the process;
    - [message_from_file]: decoding (undecodable bytes dropped) and
      [email.message_from_file];
    - [as_string]: [Message.as_string];
    - [py_int]: [int] on a string, [None] standing for [ValueError];
    and, of the external command, [checkout_failure]: how [git checkout]
    ends when it fails. *)
Class Runtime : Type := {
  parsedate_tz : string → option date_tuple;
  mktime_tz : date_tuple → result Z;
  fromtimestamp_ctime : Z → result string;
  message_from_file : string → Message;
  as_string : Message → result string;
  py_int : string → option Z;
  checkout_failure : failure_status
}.

(** [email.utils.mktime_tz(data)] starts with [data[9]]: on [None] that
    subscript raises [TypeError]. *)
Definition mktime_tz_call `{Runtime} (data : option date_tuple) : result Z :=
  match data with
  | None => Raise TypeError
  | Some t => mktime_tz t
  end.

(** ** The envelope line (lines 31-66) *)

Definition fake_from_line : string := "From: unknown@example.com".
Definition fake_date_line : string := "Sat, 3 Jan 1970 12:34:56 -0800".

(** Lines 46-54: the local variable [from_address]. *)
Definition from_address (msg : Message) : string :=
  let from_line := or_default (msg_get msg "From") fake_from_line in
  Re.sub_empty address_pattern from_line.

(** Lines 56-63: the local variable [date_formatted]. *)
Definition date_formatted `{Runtime} (msg : Message) : result string :=
  let date_line := or_default (msg_get msg "Date") fake_date_line in
  let date_tuple := parsedate_tz date_line in
  result_bind (mktime_tz_call date_tuple) (λ timestamp,
  fromtimestamp_ctime timestamp).

Definition generate_envelope_from `{Runtime} (msg : Message) : result string :=
  let from_address := from_address msg in
  result_bind (date_formatted msg) (λ date_formatted,
  Ok ("From " +:+ from_address +:+ " " +:+ date_formatted)).

(** ** The world: files, the checkout, standard output *)

(** What the process asks of the operating system. *)
Inductive event : Type :=
| OpenRead (path : string) (ok : bool)
| OpenAppend (path : string)
| Spawn (argv : list string) (status : Z).

(** [files]: the working directory; [history]: the ancestors of the
    checked-out revision, the parent first, each with the content of [m]
    in it, if any; [stdout]: what was printed; [trace]: the system calls
    made so far, the oldest first. *)
Record World : Type := {
  files : gmap string string;
  history : list (option string);
  stdout : string;
  trace : list event
}.

Definition content (w : World) (path : string) : string :=
  default "" (files w !! path).

(** Computations that read and change the world and may raise. *)
Definition M (A : Type) : Type := World → result A * World.

Definition ret {A} (a : A) : M A := λ w, (Ok a, w).

Definition raise {A} (e : exn) : M A := λ w, (Raise e, w).

Definition bind {A B} (m : M A) (k : A → M B) : M B :=
  λ w, match m w with
       | (Ok a, w') => k a w'
       | (Raise e, w') => (Raise e, w')
       end.

Definition lift {A} (r : result A) : M A := λ w, (r, w).

Declare Scope io_scope.
Delimit Scope io_scope with io.
Notation "x <- m ;; k" := (bind m (λ x, k))
  (at level 100, m at next level, right associativity) : io_scope.
Notation "m ;; k" := (bind m (λ _, k))
  (at level 100, right associativity) : io_scope.
Local Open Scope io_scope.

Definition log (e : event) : M unit :=
  λ w, (Ok tt, {| files := files w; history := history w;
                  stdout := stdout w; trace := trace w ++ [e] |}).

(** [sys.stdout.write(s)]. *)
Definition stdout_write (s : string) : M unit :=
  λ w, (Ok tt, {| files := files w; history := history w;
                  stdout := stdout w +:+ s; trace := trace w |}).

(** [print(s)]. *)
Definition print (s : string) : M unit := stdout_write (s +:+ nl).

(** [open(path, 'r')] and reading it whole; a missing file raises. *)
Definition read_file (path : string) : M string :=
  λ w, match files w !! path with
       | Some c => (log (OpenRead path true) ;; ret c) w
       | None => (log (OpenRead path false) ;; raise (FileNotFoundError path)) w
       end.

(** [open(path, 'a')]: the file is created when it does not exist. *)
Definition open_append (path : string) : M unit :=
  λ w, (Ok tt, {| files := <[path := content w path]> (files w);
                  history := history w; stdout := stdout w;
                  trace := trace w ++ [OpenAppend path] |}).

(** [fh.write(data)] on a file opened for appending. *)
Definition file_write (path : string) (data : string) : M unit :=
  λ w, (Ok tt, {| files := <[path := content w path +:+ data]> (files w);
                  history := history w; stdout := stdout w;
                  trace := trace w |}).

Definition git_checkout_argv : list string := ["git"; "checkout"; "-q"; "HEAD^"].

(** Modelled from the spec: the external version-control checkout, which
    is not part of the repository.  On success the command replaces the
    message file by that of the parent revision and returns 0; when there
    is no earlier revision it changes nothing and returns a non-zero
    status, whichever the runtime says. *)
Definition git_checkout_prev `{Runtime} : M Z :=
  λ w, match history w with
       | [] =>
           (Ok (status_of checkout_failure),
            {| files := files w; history := [];
               stdout := stdout w;
               trace := trace w ++ [Spawn git_checkout_argv (status_of checkout_failure)] |})
       | rev :: older =>
           (Ok 0, {| files := match rev with
                              | Some text => <["m" := text]> (files w)
                              | None => delete "m" (files w)
                              end;
                     history := older;
                     stdout := stdout w;
                     trace := trace w ++ [Spawn git_checkout_argv 0] |})
       end.

(** ** Appending one message (lines 68-87) *)

Definition append_msg_to_mbox `{Runtime} (message_filename mbox_filename : string) : M unit :=
  text <- read_file message_filename ;;
  let msg := message_from_file text in
  from_line <- lift (generate_envelope_from msg) ;;
  open_append mbox_filename ;;
  file_write mbox_filename (from_line +:+ nl) ;;
  body <- lift (as_string msg) ;;
  file_write mbox_filename body ;;
  file_write mbox_filename nl.

(** ** The script (lines 89-110) *)

(** [for x in l: body(x)]. *)
Fixpoint for_each {A} (l : list A) (body : A → M unit) : M unit :=
  match l with
  | [] => ret tt
  | x :: l' => body x ;; for_each l' body
  end.

(** [range(count)]: empty when [count <= 0]. *)
Definition py_range (count : Z) : list Z :=
  Z.of_nat <$> seq 0 (Z.to_nat count).

(** ["%10d\r" % i]. *)
Definition CR : ascii := "013"%char.
Definition progress (i : Z) : string :=
  Str.rjust 10 (pretty i) +:+ String CR "".

Definition usage (prog : string) : list string :=
  [ "Usage: " +:+ prog +:+ " <count>";
    "Import messages from a LKML-style git repo.";
    "Messages will be read from 'm' (how the LKML does it) and appended to 'mbox'.";
    "First check out the LAST message you want to read, and then this script will work its way";
    "back for <count> messages.";
    "for example, to import the last 1000 messages:";
    "  $ git checkout origin/master";
    "  $ " +:+ prog +:+ " 1000" ].

Definition git_error : exn :=
  Exception "git returned nonzero.  Maybe that was the last message?".

(** [sys.argv[i]]. *)
Definition argv_at (argv : list string) (i : nat) : M string :=
  match argv !! i with
  | Some s => ret s
  | None => raise IndexError
  end.

(** One iteration of the loop of lines 103-110. *)
Definition loop_body `{Runtime} (i : Z) : M unit :=
  stdout_write (progress i) ;;
  append_msg_to_mbox "m" "mbox" ;;
  status <- git_checkout_prev ;;
  if decide (status ≠ 0) then raise git_error else ret tt.

Definition main `{Runtime} (argv : list string) : M unit :=
  if decide (length argv ≠ 2%nat) then
    prog <- argv_at argv 0 ;;
    for_each (usage prog) print ;;
    raise (SystemExit 1)
  else
    arg <- argv_at argv 1 ;;
    count <- match py_int arg with
             | Some n => ret n
             | None => raise ValueError
             end ;;
    for_each (py_range count) loop_body.

(** How the process ends: [sys.exit(c)] and falling off the end of the
    script exit with a status; any other exception is uncaught, printed
    with its traceback, and the interpreter exits with status 1. *)
Inductive outcome : Type :=
| Exited (status : Z)
| Uncaught (e : exn).

Definition exit_status (o : outcome) : Z :=
  match o with
  | Exited c => c
  | Uncaught _ => 1
  end.

Definition run_script `{Runtime} (argv : list string) (w : World) : outcome * World :=
  match main argv w with
  | (Ok _, w') => (Exited 0, w')
  | (Raise (SystemExit c), w') => (Exited c, w')
  | (Raise e, w') => (Uncaught e, w')
  end.

(** ** Vocabulary of the statements *)

(** The block of a message text: the envelope line, a line feed, the
    serialized message, a line feed. *)
Definition block `{Runtime} (text : string) : result string :=
  let msg := message_from_file text in
  result_bind (generate_envelope_from msg) (λ line,
  result_bind (as_string msg) (λ body,
  Ok (line +:+ nl +:+ body +:+ nl))).

Definition is_read_ok (e : event) : bool :=
  match e with
  | OpenRead _ ok => ok
  | _ => false
  end.

Definition is_step (e : event) : bool :=
  match e with
  | Spawn _ _ => true
  | _ => false
  end.

Definition is_step_ok (e : event) : bool :=
  match e with
  | Spawn _ status => bool_decide (status = 0)
  | _ => false
  end.

Definition is_step_failed (e : event) : bool :=
  match e with
  | Spawn _ status => bool_decide (status ≠ 0)
  | _ => false
  end.

Fixpoint count (p : event → bool) (evs : list event) : nat :=
  match evs with
  | [] => 0
  | e :: evs' => (if p e then 1 else 0) + count p evs'
  end%nat.

(** The system calls made between two states of the world. *)
Definition events_since (w w' : World) : list event :=
  drop (length (trace w)) (trace w').

(** What [print] writes for the usage text of lines 91-98. *)
Definition usage_text (prog : string) : string :=
  Str.concat ((λ s, s +:+ nl) <$> usage prog).

(** The message texts that [n] iterations read: the one checked out,
    then those of the ancestors, the parent first. *)
Definition visited (n : nat) (w : World) : list (option string) :=
  take n (files w !! "m" :: history w).

Definition is_read (e : event) : bool :=
  match e with
  | OpenRead _ _ => true
  | _ => false
  end.

Definition is_append (e : event) : bool :=
  match e with
  | OpenAppend _ => true
  | _ => false
  end.

(** [range(r)] for a natural number [r]. *)
Definition indices (r : nat) : list Z := Z.of_nat <$> seq 0 r.

(** ** A runtime for the examples

    The theorems below hold for every [Runtime].  The examples instantiate
    them at a small one: it knows the date of the script's own comments
    (lines 57-63), parses messages whose header fields take one line each,
    reads signed decimal numbers, and has a [git] that fails with exit
    code 1. *)
Module Example.

Definition comment_tuple : date_tuple :=
  {| dt_year := 1970; dt_month := 1; dt_day := 3;
     dt_hour := 12; dt_minute := 34; dt_second := 56;
     dt_tzoffset := Some (-28800) |}.

Definition ex_parsedate_tz (s : string) : option date_tuple :=
  if String.eqb s "Sat, 3 Jan 1970 12:34:56 -0800" then Some comment_tuple else None.

Definition ex_mktime_tz (t : date_tuple) : result Z :=
  Ok (((dt_day t - 1) * 24 + dt_hour t) * 3600 + dt_minute t * 60 + dt_second t
      - default 0 (dt_tzoffset t)).

Definition ex_fromtimestamp_ctime (t : Z) : result string :=
  if decide (t = 246896) then Ok "Sat Jan  3 12:34:56 1970"
  else Raise (LibraryError "fromtimestamp").

(** Splits [s] at the first occurrence of [c]. *)
Fixpoint split_at (c : ascii) (s : string) : option (string * string) :=
  match s with
  | EmptyString => None
  | String c' s' =>
      if Ascii.eqb c c' then Some ("", s')
      else match split_at c s' with
           | Some (a, b) => Some (String c' a, b)
           | None => None
           end
  end.

Definition lstrip_space (s : string) : string :=
  match s with
  | String " " s' => s'
  | _ => s
  end.

(** Header lines up to the first empty line, then the body. *)
Fixpoint parse_go (fuel : nat) (s : string) (acc : list (string * string)) : Message :=
  match fuel with
  | O => {| headers := reverse acc; payload := s |}
  | S fuel' =>
      match split_at LF s with
      | Some ("", rest) => {| headers := reverse acc; payload := rest |}
      | Some (line, rest) =>
          match split_at ":" line with
          | Some (k, v) => parse_go fuel' rest ((k, lstrip_space v) :: acc)
          | None => {| headers := reverse acc; payload := s |}
          end
      | None => {| headers := reverse acc; payload := s |}
      end
  end.

Definition ex_message_from_file (s : string) : Message :=
  parse_go (String.length s) s [].

Definition ex_as_string (msg : Message) : result string :=
  Ok (Str.concat ((λ kv, fst kv +:+ ": " +:+ snd kv +:+ nl) <$> headers msg)
      +:+ nl +:+ payload msg).

Fixpoint digits (s : string) (acc : Z) : option Z :=
  match s with
  | EmptyString => Some acc
  | String c s' =>
      match Ascii.is_nat c with
      | Some d => digits s' (10 * acc + Z.of_nat d)
      | None => None
      end
  end.

Definition ex_py_int (s : string) : option Z :=
  match s with
  | EmptyString => None
  | String "-" EmptyString => None
  | String "-" s' => Z.opp <$> digits s' 0
  | _ => digits s 0
  end.

#[export] Instance runtime : Runtime :=
  {| parsedate_tz := ex_parsedate_tz;
     mktime_tz := ex_mktime_tz;
     fromtimestamp_ctime := ex_fromtimestamp_ctime;
     message_from_file := ex_message_from_file;
     as_string := ex_as_string;
     py_int := ex_py_int;
     checkout_failure := ExitCode 1 |}.

(** The message of the example in section 8 of the specification. *)
Definition hello : string :=
  "From: J Doe <jdoe@x.com>" +:+ nl +:+
  "Date: Sat, 3 Jan 1970 12:34:56 -0800" +:+ nl +:+ nl +:+ "Hello".

Definition world (m : option string) (older : list (option string)) : World :=
  {| files := match m with Some text => {["m" := text]} | None => ∅ end;
     history := older; stdout := ""; trace := [] |}.

(** A second message, and a checkout with two earlier revisions. *)
Definition reply : string :=
  "From: jane@x.com" +:+ nl +:+
  "Date: Sat, 3 Jan 1970 12:34:56 -0800" +:+ nl +:+ nl +:+ "Hi" +:+ nl.

Definition three_revisions : World :=
  world (Some (hello +:+ nl)) [Some reply; Some (hello +:+ nl)].

(** A checkout whose [mbox] already holds the output of an earlier run. *)
Definition resumed : World :=
  {| files := {[ "m" := reply; "mbox" := "earlier run" +:+ nl ]};
     history := [Some (hello +:+ nl)]; stdout := ""; trace := [] |}.

(** A message whose date is not one, and a checkout that has it one
    revision back. *)
Definition undated : string :=
  "From: jane@x.com" +:+ nl +:+ "Date: not a date" +:+ nl +:+ nl +:+ "Hi" +:+ nl.

Definition bad_date_behind : World :=
  world (Some (hello +:+ nl)) [Some undated; Some reply].

(** A checkout whose parent revision has no message file. *)
Definition gap_behind : World :=
  world (Some (hello +:+ nl)) [None; Some reply].

(** A checkout with a file that is neither [m] nor [mbox]. *)
Definition with_readme : World :=
  {| files := {[ "m" := reply; "README" := "one message per commit" +:+ nl ]};
     history := [Some (hello +:+ nl)]; stdout := ""; trace := [] |}.

(** The block that the first message of these checkouts leads to. *)
Definition hello_block : string :=
  "From jdoe@x.com Sat Jan  3 12:34:56 1970" +:+ nl +:+ (hello +:+ nl) +:+ nl.

(** A runtime that cannot serialize a message without header fields. *)
Definition strict_as_string (msg : Message) : result string :=
  match headers msg with
  | [] => Raise (LibraryError "as_string")
  | _ => ex_as_string msg
  end.

Definition strict_runtime : Runtime :=
  {| parsedate_tz := ex_parsedate_tz;
     mktime_tz := ex_mktime_tz;
     fromtimestamp_ctime := ex_fromtimestamp_ctime;
     message_from_file := ex_message_from_file;
     as_string := strict_as_string;
     py_int := ex_py_int;
     checkout_failure := ExitCode 1 |}.

(** A runtime whose [git] ends with status 128, and one whose [git] is
    killed by signal 9. *)
Definition fatal_runtime : Runtime :=
  {| parsedate_tz := ex_parsedate_tz;
     mktime_tz := ex_mktime_tz;
     fromtimestamp_ctime := ex_fromtimestamp_ctime;
     message_from_file := ex_message_from_file;
     as_string := ex_as_string;
     py_int := ex_py_int;
     checkout_failure := ExitCode 128 |}.

Definition killed_runtime : Runtime :=
  {| parsedate_tz := ex_parsedate_tz;
     mktime_tz := ex_mktime_tz;
     fromtimestamp_ctime := ex_fromtimestamp_ctime;
     message_from_file := ex_message_from_file;
     as_string := ex_as_string;
     py_int := ex_py_int;
     checkout_failure := Killed 9 |}.

End Example.

(** ** Messages for the examples *)

Definition msg_bad_date : Message :=
  {| headers := [("From", "J Doe <jdoe@x.com>"); ("Date", "not a date")];
     payload := "Hello" |}.

Definition msg_no_from : Message :=
  {| headers := [("Date", "Sat, 3 Jan 1970 12:34:56 -0800")]; payload := "Hello" |}.

Definition msg_empty_from : Message :=
  {| headers := [("From", "")]; payload := "" |}.

Definition folded_name : string := "J" +:+ nl +:+ " Doe".

Definition msg_folded_from : Message :=
  {| headers := [("From", folded_name +:+ " <" +:+ "jdoe@x.com" +:+ ">")];
     payload := "" |}.

Definition msg_bracketed_from : Message :=
  {| headers := [("From", "J Doe" +:+ " <" +:+ "jdoe@x.com" +:+ ">");
                 ("Date", "Sat, 3 Jan 1970 12:34:56 -0800")];
     payload := "Hello" |}.

Definition msg_bare_from : Message :=
  {| headers := [("From", "jdoe@x.com")]; payload := "Hello" |}.

Definition msg_empty_from_dated : Message :=
  {| headers := [("From", ""); ("Date", "Sat, 3 Jan 1970 12:34:56 -0800")];
     payload := "Hello" |}.

Definition msg_two_addresses : Message :=
  {| headers := [("From", "A <a@x.com>, B " +:+ "<" +:+ "b@y.org" +:+ ">" +:+ " (list)")];
     payload := "" |}.

Definition msg_readdressed : Message :=
  {| headers := [("From", "b@y.org")]; payload := "" |}.

(** * Properties *)

(** ** Strings *)

Lemma app_cons (c : ascii) (s1 s2 : string) :
  String c s1 +:+ s2 = String c (s1 +:+ s2).
Proof. reflexivity. Qed.

Lemma app_nil_r (s : string) : s +:+ "" = s.
Proof. induction s as [|c s IH]; [done|]. by rewrite app_cons, IH. Qed.

Lemma app_assoc (s1 s2 s3 : string) : (s1 +:+ s2) +:+ s3 = s1 +:+ s2 +:+ s3.
Proof. induction s1 as [|c s1 IH]; [done|]. by rewrite !app_cons, IH. Qed.

Lemma mem_cons (c c' : ascii) (s : string) :
  Str.mem c (String c' s) = Ascii.eqb c c' || Str.mem c s.
Proof. cbn. by destruct (Ascii.eqb c c'). Qed.

Lemma mem_app (c : ascii) (s1 s2 : string) :
  Str.mem c (s1 +:+ s2) = Str.mem c s1 || Str.mem c s2.
Proof.
  induction s1 as [|c' s1 IH]; [done|].
  rewrite app_cons, !mem_cons, IH. apply orb_assoc.
Qed.

Lemma prefix_of_refl (s : string) : Str.prefix_of s s.
Proof. exists "". by rewrite app_nil_r. Qed.

Lemma prefix_of_app (s t : string) : Str.prefix_of s (s +:+ t).
Proof. by exists t. Qed.

(** ** The regular expression of line 54 *)

Section address_pattern.
Import Re.

Lemma match_here_star_cons (p : list atom) (c : ascii) (s : string) :
  match_here (DotStar :: p) (String c s) =
    if Ascii.eqb c LF then match_here p (String c s)
    else match match_here (DotStar :: p) s with
         | Some n => Some (S n)
         | None => match_here p (String c s)
         end.
Proof. reflexivity. Qed.

Lemma match_here_lit_cons (c : ascii) (p : list atom) (c' : ascii) (s : string) :
  match_here (Lit c :: p) (String c' s) =
    if Ascii.eqb c c' then S <$> match_here p s else None.
Proof. reflexivity. Qed.

Lemma match_alt_two (p1 p2 : list atom) (s : string) :
  match_alt [p1; p2] s =
    match match_here p1 s with
    | Some n => Some n
    | None => match_here p2 s
    end.
Proof. cbn [match_alt]. by destruct (match_here p1 s), (match_here p2 s). Qed.

(** No match of the pattern is empty: each alternative has a literal. *)
Lemma match_alt_nonempty (s : string) : match_alt address_pattern s ≠ Some 0%nat.
Proof.
  assert (Hlit : ∀ c p t, match_here (Lit c :: p) t ≠ Some 0%nat).
  { intros c p [|c' t]; [done|]. rewrite match_here_lit_cons.
    destruct (Ascii.eqb c c'); [|done]. by destruct (match_here p t). }
  assert (H1 : match_here [DotStar; Lit "<"%char] s ≠ Some 0%nat).
  { induction s as [|c s IH]; [done|].
    rewrite match_here_star_cons. specialize (Hlit "<"%char [] (String c s)).
    destruct (Ascii.eqb c LF); [done|].
    by destruct (match_here [DotStar; Lit "<"%char] s). }
  unfold address_pattern. rewrite match_alt_two.
  destruct (match_here [DotStar; Lit "<"%char] s) as [n|]; [congruence|].
  apply Hlit.
Qed.

(** [.*<] fails where the rest of the text has no [<]. *)
Lemma first_alt_fails (s : string) :
  Str.mem "<" s = false → match_here [DotStar; Lit "<"%char] s = None.
Proof.
  induction s as [|c s IH]; [done|].
  rewrite mem_cons. intros [Hc Hs]%orb_false_elim.
  rewrite match_here_star_cons, (IH Hs), match_here_lit_cons, Hc.
  by destruct (Ascii.eqb c LF).
Qed.

(** [.*<] runs up to the last [<] of the line. *)
Lemma first_alt_matches (pre rest : string) :
  Str.mem LF pre = false → Str.mem "<" rest = false →
  match_here [DotStar; Lit "<"%char] (pre +:+ String "<" rest)
  = Some (S (String.length pre)).
Proof.
  intros Hpre Hrest. induction pre as [|c pre IH].
  - change ("" +:+ String "<" rest) with (String "<" rest).
    rewrite match_here_star_cons, (first_alt_fails _ Hrest). done.
  - rewrite mem_cons in Hpre. apply orb_false_elim in Hpre as [Hc Hpre].
    rewrite app_cons, match_here_star_cons, (IH Hpre).
    rewrite Ascii.eqb_sym in Hc. by rewrite Hc.
Qed.

Lemma match_alt_none (c : ascii) (s : string) :
  Ascii.eqb ">" c = false → Str.mem "<" (String c s) = false →
  match_alt address_pattern (String c s) = None.
Proof.
  intros Hc Hs. unfold address_pattern.
  by rewrite match_alt_two, (first_alt_fails _ Hs), match_here_lit_cons, Hc.
Qed.

(** Characters outside every match are kept. *)
Lemma sub_go_keep (x y : string) :
  Str.mem "<" x = false → Str.mem ">" x = false → Str.mem "<" y = false →
  sub_go address_pattern 0 (x +:+ y) = x +:+ sub_go address_pattern 0 y.
Proof.
  intros Hlt Hgt Hy. induction x as [|c x IH]; [done|].
  rewrite mem_cons in Hlt, Hgt.
  apply orb_false_elim in Hlt as [Hc1 Hlt], Hgt as [Hc2 Hgt].
  rewrite !app_cons. cbn [sub_go].
  rewrite match_alt_none; [|done|].
  - by rewrite IH.
  - by rewrite mem_cons, mem_app, Hc1, Hlt, Hy.
Qed.

(** The characters of a match are dropped. *)
Lemma sub_go_skip (pat : pattern) (x : string) (c : ascii) (y : string) :
  sub_go pat (S (String.length x)) (x +:+ String c y) = sub_go pat 0 y.
Proof. induction x as [|c' x IH]; [done|]. rewrite app_cons. cbn. apply IH. Qed.

Lemma sub_empty_bare (v : string) :
  Str.mem "<" v = false → Str.mem ">" v = false →
  sub_empty address_pattern v = v.
Proof.
  intros Hlt Hgt. unfold sub_empty.
  rewrite <- (app_nil_r v) at 1. rewrite sub_go_keep by done.
  apply app_nil_r.
Qed.

Lemma sub_empty_bracketed (pre addr : string) :
  Str.mem LF pre = false →
  Str.mem "<" addr = false → Str.mem ">" addr = false →
  sub_empty address_pattern (pre +:+ "<" +:+ addr +:+ ">") = addr.
Proof.
  intros Hpre Hlt Hgt. unfold sub_empty.
  assert (Hrest : Str.mem "<" (addr +:+ ">") = false).
  { by rewrite mem_app, Hlt. }
  assert (Htail : sub_go address_pattern 0 (addr +:+ ">") = addr).
  { rewrite sub_go_keep by done. apply app_nil_r. }
  pose proof (first_alt_matches pre (addr +:+ ">") Hpre Hrest) as Hm.
  change ("<" +:+ addr +:+ ">") with (String "<" (addr +:+ ">")).
  destruct pre as [|c pre].
  - change ("" +:+ String "<" (addr +:+ ">")) with (String "<" (addr +:+ ">")) in *.
    cbn [sub_go]. unfold address_pattern at 1. by rewrite match_alt_two, Hm.
  - rewrite app_cons in *. cbn [sub_go].
    unfold address_pattern at 1. rewrite match_alt_two, Hm.
    cbn [String.length]. by rewrite sub_go_skip.
Qed.

End address_pattern.

(** ** The envelope line *)

Section envelope.
Context `{Runtime}.

(** The line is [From], the address and the rendered date, one space
    between them; it exists exactly when the date can be rendered. *)
Lemma generate_envelope_from_shape (msg : Message) :
  generate_envelope_from msg =
    result_map (λ d, "From " +:+ from_address msg +:+ " " +:+ d) (date_formatted msg).
Proof. reflexivity. Qed.

Lemma or_default_none (dflt : string) : or_default None dflt = dflt.
Proof. reflexivity. Qed.

Lemma or_default_empty (dflt : string) : or_default (Some "") dflt = dflt.
Proof. reflexivity. Qed.

Lemma or_default_some (v dflt : string) : v ≠ "" → or_default (Some v) dflt = v.
Proof. by destruct v. Qed.

(** A missing [Date] and an empty one both make the script parse the fake
    date of line 59. *)
Lemma date_formatted_fallback (msg : Message) :
  msg_get msg "Date" = None ∨ msg_get msg "Date" = Some "" →
  date_formatted msg =
    result_bind (mktime_tz_call (parsedate_tz fake_date_line)) fromtimestamp_ctime.
Proof. unfold date_formatted. by intros [-> | ->]. Qed.

End envelope.

(** C1: a [Date] field that is present, not empty, and that
    [email.utils.parsedate_tz] rejects does not lead to the fake date of
    line 59: [parsedate_tz] returns [None], [mktime_tz(None)] raises
    [TypeError], and [generate_envelope_from] lets it escape to its caller. *)
Theorem malformed_date_raises `{Runtime} (msg : Message) (d : string) :
  msg_get msg "Date" = Some d →
  d ≠ "" →
  parsedate_tz d = None →
  date_formatted msg = Raise TypeError ∧
  generate_envelope_from msg = Raise TypeError.
Proof.
  intros Hget Hd Hparse.
  assert (date_formatted msg = Raise TypeError) as Hdate.
  { unfold date_formatted. by rewrite Hget, or_default_some, Hparse. }
  split; [done|]. by rewrite generate_envelope_from_shape, Hdate.
Qed.

Lemma malformed_date_raises_witness :
  date_formatted (H := Example.runtime) msg_bad_date = Raise TypeError ∧
  generate_envelope_from (H := Example.runtime) msg_bad_date = Raise TypeError.
Proof.
  apply (malformed_date_raises (H := Example.runtime) msg_bad_date "not a date").
  - reflexivity.
  - discriminate.
  - reflexivity.
Defined.

(** C2: without a [From] field the text that goes through the regular
    expression is the whole fake line [From: unknown@example.com]; it has
    no angle bracket, nothing is stripped, and the address of the envelope
    line keeps the [From: ] in front, unlike the line that the comment of
    line 65 shows. *)
Theorem missing_from_address `{Runtime} (msg : Message) :
  msg_get msg "From" = None →
  from_address msg = "From: unknown@example.com" ∧
  from_address msg ≠ "unknown@example.com" ∧
  generate_envelope_from msg =
    result_map (λ d, "From From: unknown@example.com " +:+ d) (date_formatted msg).
Proof.
  intros Hget.
  assert (from_address msg = "From: unknown@example.com") as Haddr.
  { unfold from_address. rewrite Hget, or_default_none.
    by apply sub_empty_bare. }
  split; [done|]. split; [by rewrite Haddr|].
  by rewrite generate_envelope_from_shape, Haddr.
Qed.

Lemma missing_from_address_witness :
  from_address msg_no_from = "From: unknown@example.com" ∧
  from_address msg_no_from ≠ "unknown@example.com" ∧
  generate_envelope_from (H := Example.runtime) msg_no_from =
    Ok "From From: unknown@example.com Sat Jan  3 12:34:56 1970".
Proof.
  apply (missing_from_address (H := Example.runtime) msg_no_from).
  reflexivity.
Defined.

(** What C5 says fails at two inputs: a [From] field with an empty value
    has no angle bracket, and its address is not the empty value; a
    [Name <addr>] whose name is folded over two lines keeps the first line
    of the name in front of the address. *)
Lemma from_address_counterexample :
  (msg_get msg_empty_from "From" = Some "" ∧
   Str.mem "<" "" = false ∧ Str.mem ">" "" = false ∧
   from_address msg_empty_from = "From: unknown@example.com" ∧
   from_address msg_empty_from ≠ "") ∧
  (msg_get msg_folded_from "From"
     = Some (folded_name +:+ " <" +:+ "jdoe@x.com" +:+ ">") ∧
   from_address msg_folded_from = "J" +:+ nl +:+ "jdoe@x.com" ∧
   from_address msg_folded_from ≠ "jdoe@x.com").
Proof. by vm_compute. Qed.

(** C5, amended: when the value of [From] is [Name <addr>] with the name
    on one line and no angle bracket inside [addr], the address of the
    envelope line is [addr]; when the value is not empty and has no angle
    bracket, the address is the value itself. *)
Theorem from_address_extraction `{Runtime} (msg : Message) (v : string) :
  msg_get msg "From" = Some v →
  (∀ name addr,
     v = name +:+ " <" +:+ addr +:+ ">" →
     Str.mem LF name = false →
     Str.mem "<" addr = false → Str.mem ">" addr = false →
     from_address msg = addr ∧
     generate_envelope_from msg =
       result_map (λ d, "From " +:+ addr +:+ " " +:+ d) (date_formatted msg)) ∧
  (v ≠ "" →
   Str.mem "<" v = false → Str.mem ">" v = false →
   from_address msg = v ∧
   generate_envelope_from msg =
     result_map (λ d, "From " +:+ v +:+ " " +:+ d) (date_formatted msg)).
Proof.
  intros Hget. split.
  - intros name addr -> Hname Hlt Hgt.
    assert (from_address msg = addr) as Haddr.
    { unfold from_address. rewrite Hget, or_default_some by by destruct name.
      replace (name +:+ " <" +:+ addr +:+ ">")
        with ((name +:+ " ") +:+ "<" +:+ addr +:+ ">") by by rewrite app_assoc.
      apply sub_empty_bracketed; [|done..].
      by rewrite mem_app, Hname. }
    split; [done|]. by rewrite generate_envelope_from_shape, Haddr.
  - intros Hv Hlt Hgt.
    assert (from_address msg = v) as Haddr.
    { unfold from_address. rewrite Hget, or_default_some by done.
      by apply sub_empty_bare. }
    split; [done|]. by rewrite generate_envelope_from_shape, Haddr.
Qed.

Lemma from_address_extraction_witness :
  (from_address msg_bracketed_from = "jdoe@x.com" ∧
   generate_envelope_from (H := Example.runtime) msg_bracketed_from =
     Ok "From jdoe@x.com Sat Jan  3 12:34:56 1970") ∧
  (from_address msg_bare_from = "jdoe@x.com" ∧
   generate_envelope_from (H := Example.runtime) msg_bare_from =
     Ok "From jdoe@x.com Sat Jan  3 12:34:56 1970").
Proof.
  split.
  - apply (proj1 (from_address_extraction (H := Example.runtime)
                    msg_bracketed_from _ eq_refl) "J Doe" "jdoe@x.com");
      reflexivity.
  - apply (proj2 (from_address_extraction (H := Example.runtime)
                    msg_bare_from "jdoe@x.com" eq_refl));
      [discriminate | reflexivity | reflexivity].
Defined.

(** C10: a [From] field whose value is the empty string is falsy at line
    48, so the script goes on with the same fake line as for a message
    without the field, and the two envelope lines are equal whenever the
    [Date] fields are. *)
Theorem empty_from_is_missing `{Runtime} (msg : Message) :
  msg_get msg "From" = Some "" →
  from_address msg = Re.sub_empty address_pattern fake_from_line ∧
  ∀ msg', msg_get msg' "From" = None →
          msg_get msg' "Date" = msg_get msg "Date" →
          from_address msg = from_address msg' ∧
          generate_envelope_from msg = generate_envelope_from msg'.
Proof.
  intros Hget.
  assert (from_address msg = Re.sub_empty address_pattern fake_from_line) as Haddr.
  { unfold from_address. by rewrite Hget. }
  split; [done|]. intros msg' Hget' Hdate.
  assert (from_address msg = from_address msg') as Heq.
  { rewrite Haddr. unfold from_address. by rewrite Hget'. }
  split; [done|].
  rewrite !generate_envelope_from_shape, Heq.
  unfold date_formatted. by rewrite Hdate.
Qed.

Lemma empty_from_is_missing_witness :
  from_address msg_empty_from_dated = from_address msg_no_from ∧
  generate_envelope_from (H := Example.runtime) msg_empty_from_dated =
    generate_envelope_from (H := Example.runtime) msg_no_from.
Proof.
  apply (proj2 (empty_from_is_missing (H := Example.runtime)
                  msg_empty_from_dated eq_refl) msg_no_from);
    reflexivity.
Defined.

(** ** Appending one message *)

Section append.
Context `{Runtime}.

Lemma content_insert_eq (fs : gmap string string) (hs : list (option string))
    (out : string) (tr : list event) (path data : string) :
  content {| files := <[path := data]> fs; history := hs; stdout := out; trace := tr |} path
  = data.
Proof. unfold content. cbn. by rewrite lookup_insert_eq. Qed.

(** The four ways a call can go: the message file is missing; the
    envelope line cannot be made; the message cannot be serialized, after
    the envelope line has been written; the whole block is written. *)
Lemma append_msg_to_mbox_cases (mf mb : string) (w : World) :
  append_msg_to_mbox mf mb w =
    match files w !! mf with
    | None =>
        (Raise (FileNotFoundError mf),
         {| files := files w; history := history w; stdout := stdout w;
            trace := trace w ++ [OpenRead mf false] |})
    | Some text =>
        let msg := message_from_file text in
        match generate_envelope_from msg with
        | Raise e =>
            (Raise e,
             {| files := files w; history := history w; stdout := stdout w;
                trace := trace w ++ [OpenRead mf true] |})
        | Ok line =>
            match as_string msg with
            | Raise e =>
                (Raise e,
                 {| files := <[mb := content w mb +:+ line +:+ nl]> (files w);
                    history := history w; stdout := stdout w;
                    trace := trace w ++ [OpenRead mf true; OpenAppend mb] |})
            | Ok body =>
                (Ok tt,
                 {| files := <[mb := content w mb +:+ line +:+ nl +:+ body +:+ nl]> (files w);
                    history := history w; stdout := stdout w;
                    trace := trace w ++ [OpenRead mf true; OpenAppend mb] |})
            end
        end
    end.
Proof.
  unfold append_msg_to_mbox, bind at 1, read_file.
  destruct (files w !! mf) as [text|] eqn:Hread; [|done].
  cbn -[generate_envelope_from]. unfold lift.
  destruct (generate_envelope_from (message_from_file text)) as [line|e]; [|done].
  unfold bind, open_append, file_write. cbn -[content].
  destruct (as_string (message_from_file text)) as [body|e].
  - rewrite !content_insert_eq, !insert_insert_eq, <- !app_assoc, <- !(assoc_L (++)).
    by rewrite !app_assoc.
  - by rewrite !content_insert_eq, !insert_insert_eq, <- !(assoc_L (++)).
Qed.

End append.

(** ** One iteration *)

Section iteration.
Context `{Runtime}.

Lemma status_of_nonzero (f : failure_status) : status_of f ≠ 0.
Proof. by destruct f. Qed.

Lemma status_of_decide (f : failure_status) :
  bool_decide (status_of f = 0) = false ∧ bool_decide (status_of f ≠ 0) = true.
Proof. by destruct f. Qed.

Lemma loop_body_cases (i : Z) (w : World) :
  loop_body i w =
    match files w !! "m" with
    | None =>
        (Raise (FileNotFoundError "m"),
         {| files := files w; history := history w;
            stdout := stdout w +:+ progress i;
            trace := trace w ++ [OpenRead "m" false] |})
    | Some text =>
        let msg := message_from_file text in
        match generate_envelope_from msg with
        | Raise e =>
            (Raise e,
             {| files := files w; history := history w;
                stdout := stdout w +:+ progress i;
                trace := trace w ++ [OpenRead "m" true] |})
        | Ok line =>
            match as_string msg with
            | Raise e =>
                (Raise e,
                 {| files := <["mbox" := content w "mbox" +:+ line +:+ nl]> (files w);
                    history := history w;
                    stdout := stdout w +:+ progress i;
                    trace := trace w ++ [OpenRead "m" true; OpenAppend "mbox"] |})
            | Ok body =>
                let fs := <["mbox" := content w "mbox" +:+ line +:+ nl +:+ body +:+ nl]> (files w) in
                match history w with
                | [] =>
                    (Raise git_error,
                     {| files := fs; history := [];
                        stdout := stdout w +:+ progress i;
                        trace := trace w ++ [OpenRead "m" true; OpenAppend "mbox";
                                             Spawn git_checkout_argv
                                               (status_of checkout_failure)] |})
                | rev :: older =>
                    (Ok tt,
                     {| files := match rev with
                                 | Some text' => <["m" := text']> fs
                                 | None => delete "m" fs
                                 end;
                        history := older;
                        stdout := stdout w +:+ progress i;
                        trace := trace w ++ [OpenRead "m" true; OpenAppend "mbox";
                                             Spawn git_checkout_argv 0] |})
                end
            end
        end
    end.
Proof.
  unfold loop_body, bind at 1, stdout_write.
  unfold bind at 1. rewrite append_msg_to_mbox_cases. cbn [files history stdout trace].
  unfold content at 1 2. cbn [files].
  destruct (files w !! "m") as [text|]; [|done]. cbn zeta.
  destruct (generate_envelope_from (message_from_file text)) as [line|e]; [|done].
  destruct (as_string (message_from_file text)) as [body|e]; [|done].
  unfold bind, git_checkout_prev. cbn [files history stdout trace].
  destruct (history w) as [|rev older].
  - cbn [fst snd files history stdout trace].
    rewrite decide_True by apply status_of_nonzero.
    unfold raise. by rewrite <- !(assoc_L (++)).
  - cbn. by rewrite <- !(assoc_L (++)).
Qed.

End iteration.

(** ** The loop *)

Section loop.
Context `{Runtime}.

Lemma events_since_app (w w' : World) (evs : list event) :
  trace w' = trace w ++ evs → events_since w w' = evs.
Proof. unfold events_since. intros ->. by rewrite drop_app_length. Qed.

Lemma for_each_cons {A} (x : A) (l : list A) (body : A → M unit) (w : World) :
  for_each (x :: l) body w =
    match body x w with
    | (Ok _, w1) => for_each l body w1
    | (Raise e, w1) => (Raise e, w1)
    end.
Proof. reflexivity. Qed.

(** How a run of the loop ends.  The blocks written are those of the
    first messages visited, in that order, possibly followed by the
    envelope line of a message that could not be serialized; and the run
    ends in one of three ways: every iteration succeeds; a step-back
    command fails, and it is the last thing that happens; something else
    raises, and no step-back command has failed. *)
Lemma loop_run (l : list Z) (w : World) :
  ∃ (evs : list event) (texts blocks : list string) (partial : string),
    trace (for_each l loop_body w).2 = trace w ++ evs ∧
    content (for_each l loop_body w).2 "mbox"
      = content w "mbox" +:+ Str.concat blocks +:+ partial ∧
    visited (length blocks) w = Some <$> texts ∧
    block <$> texts = Ok <$> blocks ∧
    ( ( (for_each l loop_body w).1 = Ok tt ∧ partial = "" ∧
        length blocks = length l ∧
        count is_read_ok evs = length l ∧
        count is_step_ok evs = length l ∧
        count is_step_failed evs = 0%nat ∧
        (length l ≤ length (history w))%nat ∧
        history (for_each l loop_body w).2 = drop (length l) (history w) )
    ∨ ( (for_each l loop_body w).1 = Raise git_error ∧ partial = "" ∧
        (∃ evs0, evs = evs0 ++ [Spawn git_checkout_argv (status_of checkout_failure)] ∧
                 count is_step_failed evs0 = 0%nat) ∧
        length blocks = count is_step evs ∧
        length blocks = S (count is_step_ok evs) ∧
        (count is_step_ok evs < length l)%nat )
    ∨ ( (∃ e, (for_each l loop_body w).1 = Raise e) ∧
        count is_step_failed evs = 0%nat ∧
        (count is_step_ok evs < length l)%nat ) ).
Proof.
  revert w. induction l as [|i l IH]; intros w.
  { exists [], [], [], "". cbn. rewrite app_nil_r. split_and!; try done.
    - by rewrite (right_id_L [] (++)).
    - left. split_and!; try done. lia. }
  rewrite for_each_cons, loop_body_cases.
  unfold visited.
  destruct (files w !! "m") as [text|] eqn:Hm; cycle 1.
  { exists [OpenRead "m" false], [], [], "". cbn. rewrite app_nil_r.
    split_and!; try done. right; right. split_and!; eauto. lia. }
  cbn zeta.
  destruct (generate_envelope_from (message_from_file text)) as [line|e] eqn:Hline; cycle 1.
  { exists [OpenRead "m" true], [], [], "". cbn. rewrite app_nil_r.
    split_and!; try done. right; right. split_and!; eauto. lia. }
  destruct (as_string (message_from_file text)) as [body|e] eqn:Hbody; cycle 1.
  { exists [OpenRead "m" true; OpenAppend "mbox"], [], [], (line +:+ nl).
    cbn -[content]. rewrite content_insert_eq.
    split_and!; try done. right; right. split_and!; eauto. lia. }
  assert (block text = Ok (line +:+ nl +:+ body +:+ nl)) as Hblock.
  { unfold block. by rewrite Hline, Hbody. }
  destruct (history w) as [|rev older] eqn:Hhist.
  { exists [OpenRead "m" true; OpenAppend "mbox";
            Spawn git_checkout_argv (status_of checkout_failure)],
      [text], [line +:+ nl +:+ body +:+ nl], "".
    destruct (status_of_decide checkout_failure) as [Hok Hfailed].
    cbn -[content status_of]. rewrite content_insert_eq, Hblock, !app_nil_r, ?Hok.
    split_and!; try done. right; left. split_and!; try done.
    - by exists [OpenRead "m" true; OpenAppend "mbox"].
    - lia. }
  set (b := line +:+ nl +:+ body +:+ nl) in *.
  match goal with
  | |- context [for_each l loop_body ?w0] => set (w1 := w0)
  end.
  assert (files w1 !! "m" = rev) as Hm1.
  { subst w1. cbn. destruct rev; [by rewrite lookup_insert_eq | by rewrite lookup_delete_eq]. }
  assert (content w1 "mbox" = content w "mbox" +:+ b) as Hc1.
  { subst w1. unfold content at 1. cbn. destruct rev.
    - by rewrite lookup_insert_ne, lookup_insert_eq.
    - by rewrite lookup_delete_ne, lookup_insert_eq. }
  destruct (IH w1) as (evs & texts & blocks & partial & Htr & Hcont & Hvis & Hblocks & Hend).
  unfold visited in Hvis. rewrite Hm1, Hc1 in *.
  change (history w1) with older in *.
  change (trace w1) with
    (trace w ++ [OpenRead "m" true; OpenAppend "mbox"; Spawn git_checkout_argv 0]) in Htr.
  exists ([OpenRead "m" true; OpenAppend "mbox"; Spawn git_checkout_argv 0] ++ evs),
    (text :: texts), (b :: blocks), partial.
  split_and!.
  - rewrite Htr. by rewrite <- !(assoc_L (++)).
  - rewrite Hcont. cbn [Str.concat]. by rewrite !app_assoc.
  - cbn. by rewrite Hvis.
  - cbn. by rewrite Hblock, Hblocks.
  - cbn [length app count is_read_ok is_step_ok is_step_failed is_step].
    change (bool_decide (0%Z = 0%Z)) with true.
    change (bool_decide (0%Z ≠ 0%Z)) with false. cbn iota.
    destruct Hend as [(Hr & Hp & Hlen & Hreads & Hok & Hfail & Hle & Hhist')
                     |[(Hr & Hp & (evs0 & Hevs & Hfail0) & Hlen & Hlen' & Hlt)
                      |(Hr & Hfail & Hlt)]].
    + left. split_and!; try done; try lia.
    + right; left. split_and!; try done; try lia.
      exists ([OpenRead "m" true; OpenAppend "mbox"; Spawn git_checkout_argv 0] ++ evs0).
      rewrite Hevs. split; [done|].
      cbn [app count is_step_failed]. by change (bool_decide (0%Z ≠ 0%Z)) with false.
    + right; right. split_and!; try done; try lia.
Qed.

End loop.

(** ** Suffixes *)

Lemma ends_with_unfold (t s : string) :
  Str.ends_with t s =
    if String.eqb s t then true
    else match s with
         | EmptyString => false
         | String _ s' => Str.ends_with t s'
         end.
Proof. by destruct s. Qed.

Lemma ends_with_iff (t s : string) :
  Str.ends_with t s = true ↔ ∃ x, s = x +:+ t.
Proof.
  induction s as [|c s IH]; rewrite ends_with_unfold.
  - destruct (String.eqb_spec "" t) as [<-|Hne].
    + split; [|done]. by exists "".
    + split; [done|]. intros [[|c x] Hx]; [done|]. by rewrite app_cons in Hx.
  - destruct (String.eqb_spec (String c s) t) as [<-|Hne].
    + split; [|done]. by exists "".
    + rewrite IH. split.
      * intros [x ->]. by exists (String c x).
      * intros [[|c' x] Hx]; [done|].
        rewrite app_cons in Hx. injection Hx as -> ->. by exists x.
Qed.

Lemma length_app (a b : string) :
  String.length (a +:+ b) = (String.length a + String.length b)%nat.
Proof. induction a as [|c a IH]; [done|]. rewrite app_cons. cbn. by rewrite IH. Qed.

Lemma app_inv_tail (x y t : string) : x +:+ t = y +:+ t → x = y.
Proof.
  intros Heq. pose proof length_app as Hlen.
  revert y Heq. induction x as [|c x IH]; intros [|c' y] Heq.
  - done.
  - apply (f_equal String.length) in Heq. rewrite !Hlen in Heq. cbn in Heq. lia.
  - apply (f_equal String.length) in Heq. rewrite !Hlen in Heq. cbn in Heq. lia.
  - rewrite !app_cons in Heq. injection Heq as -> Heq. by rewrite (IH _ Heq).
Qed.

(** After one more line feed, [s] ends with an empty line exactly when a
    part [body] at its end is empty or ends with a line feed. *)
Lemma ends_with_blank_line (x body : string) :
  Str.ends_with (nl +:+ nl) ((x +:+ nl) +:+ body +:+ nl) = true ↔
  body = "" ∨ Str.ends_with nl body = true.
Proof.
  rewrite !ends_with_iff. split.
  - intros [t Ht]. destruct body as [|c body]; [by left|]. right.
    rewrite <- !app_assoc in Ht. apply app_inv_tail in Ht.
    revert t Ht. generalize (x +:+ nl). intros y.
    induction y as [|a y IH]; intros t Ht.
    + by exists t.
    + destruct t as [|a' t].
      * apply (f_equal String.length) in Ht.
        rewrite !length_app in Ht. cbn in Ht. lia.
      * rewrite !app_cons in Ht. injection Ht as _ Ht. by apply (IH t).
  - intros [-> | [t ->]].
    + exists x. by rewrite app_assoc.
    + exists (x +:+ nl +:+ t). by rewrite !app_assoc.
Qed.

(** ** The block of one message *)

(** What C6 says fails for a message file that does not end with a line
    feed (the message of the example in section 8 of the specification):
    the call succeeds, the text appended ends with [Hello] and one line
    feed, and no empty line follows the message. *)
Lemma append_block_counterexample :
  (append_msg_to_mbox (H := Example.runtime) "m" "mbox"
     (Example.world (Some Example.hello) [])).1 = Ok tt ∧
  content (append_msg_to_mbox (H := Example.runtime) "m" "mbox"
             (Example.world (Some Example.hello) [])).2 "mbox"
    = "From jdoe@x.com Sat Jan  3 12:34:56 1970" +:+ nl +:+
      "From: J Doe <jdoe@x.com>" +:+ nl +:+
      "Date: Sat, 3 Jan 1970 12:34:56 -0800" +:+ nl +:+ nl +:+
      "Hello" +:+ nl ∧
  Str.ends_with (nl +:+ nl)
    (content (append_msg_to_mbox (H := Example.runtime) "m" "mbox"
                (Example.world (Some Example.hello) [])).2 "mbox") = false.
Proof. by vm_compute. Qed.

(** C6, amended: a successful call has read the message file and appends,
    in this order, the envelope line, a line feed, the serialized message
    and one line feed; the text so appended ends with an empty line
    exactly when the serialized message is empty or ends with a line
    feed. *)
Theorem append_msg_to_mbox_block `{Runtime} (mf mb : string) (w w' : World) :
  append_msg_to_mbox mf mb w = (Ok tt, w') →
  ∃ text line body,
    files w !! mf = Some text ∧
    generate_envelope_from (message_from_file text) = Ok line ∧
    as_string (message_from_file text) = Ok body ∧
    content w' mb = content w mb +:+ (line +:+ nl +:+ body +:+ nl) ∧
    (Str.ends_with (nl +:+ nl) (content w' mb) = true ↔
     body = "" ∨ Str.ends_with nl body = true).
Proof.
  rewrite append_msg_to_mbox_cases.
  destruct (files w !! mf) as [text|]; [|done]. cbn zeta.
  destruct (generate_envelope_from (message_from_file text)) as [line|e] eqn:Hline; [|done].
  destruct (as_string (message_from_file text)) as [body|e] eqn:Hbody; [|done].
  intros [= <-]. exists text, line, body. rewrite content_insert_eq.
  split_and!; try done.
  rewrite <- (ends_with_blank_line (content w mb +:+ line) body).
  by rewrite !app_assoc.
Qed.

Lemma append_msg_to_mbox_block_witness :
  ∃ text line body,
    files (Example.world (Some (Example.hello +:+ nl)) []) !! "m" = Some text ∧
    generate_envelope_from (H := Example.runtime)
      (message_from_file (Runtime := Example.runtime) text) = Ok line ∧
    as_string (Runtime := Example.runtime)
      (message_from_file (Runtime := Example.runtime) text) = Ok body ∧
    content (append_msg_to_mbox (H := Example.runtime) "m" "mbox"
               (Example.world (Some (Example.hello +:+ nl)) [])).2 "mbox"
      = content (Example.world (Some (Example.hello +:+ nl)) []) "mbox"
        +:+ (line +:+ nl +:+ body +:+ nl) ∧
    (Str.ends_with (nl +:+ nl)
       (content (append_msg_to_mbox (H := Example.runtime) "m" "mbox"
                   (Example.world (Some (Example.hello +:+ nl)) [])).2 "mbox") = true ↔
     body = "" ∨ Str.ends_with nl body = true).
Proof.
  apply (append_msg_to_mbox_block (H := Example.runtime) "m" "mbox"
           (Example.world (Some (Example.hello +:+ nl)) [])).
  vm_compute. reflexivity.
Defined.

(** ** The output only grows *)

Lemma append_msg_to_mbox_grows `{Runtime} (mf mb : string) (w : World) :
  Str.prefix_of (content w mb) (content (append_msg_to_mbox mf mb w).2 mb) ∧
  (∀ c, files w !! mb = Some c →
        ∃ d, files (append_msg_to_mbox mf mb w).2 !! mb = Some (c +:+ d)) ∧
  (∀ p, p ≠ mb → files (append_msg_to_mbox mf mb w).2 !! p = files w !! p).
Proof.
  rewrite append_msg_to_mbox_cases.
  destruct (files w !! mf) as [text|]; cycle 1.
  { cbn. split_and!; [apply prefix_of_refl| |done].
    intros c ->. exists "". by rewrite app_nil_r. }
  cbn zeta.
  destruct (generate_envelope_from (message_from_file text)) as [line|e]; cycle 1.
  { cbn. split_and!; [apply prefix_of_refl| |done].
    intros c ->. exists "". by rewrite app_nil_r. }
  destruct (as_string (message_from_file text)) as [body|e];
    cbn [snd]; rewrite content_insert_eq; cbn [files];
    (split_and!; [apply prefix_of_app | | by intros p Hp; rewrite lookup_insert_ne]);
    intros c Hc; rewrite lookup_insert_eq; unfold content; rewrite Hc; eauto.
Qed.

(** ** The script *)

Section script.
Context `{Runtime}.

Lemma length_py_range (n : Z) : length (py_range n) = Z.to_nat n.
Proof. unfold py_range. by rewrite length_fmap, length_seq. Qed.

Lemma for_each_print (l : list string) (w : World) :
  for_each l print w =
    (Ok tt, {| files := files w; history := history w;
               stdout := stdout w +:+ Str.concat ((λ s, s +:+ nl) <$> l);
               trace := trace w |}).
Proof.
  revert w. induction l as [|s l IH]; intros w.
  - cbn. rewrite app_nil_r. by destruct w.
  - rewrite for_each_cons. unfold print at 1, stdout_write.
    rewrite IH. cbn. by rewrite app_assoc.
Qed.

(** Lines 90-99. *)
Lemma main_usage (prog : string) (args : list string) (w : World) :
  length args ≠ 1%nat →
  main (prog :: args) w =
    (Raise (SystemExit 1),
     {| files := files w; history := history w;
        stdout := stdout w +:+ usage_text prog; trace := trace w |}).
Proof.
  intros Hlen. unfold main.
  rewrite decide_True by (cbn; lia).
  unfold bind, argv_at, ret. cbn [lookup list_lookup].
  by rewrite for_each_print.
Qed.

(** Lines 101-110. *)
Lemma main_count (prog arg : string) (w : World) :
  main [prog; arg] w =
    match py_int arg with
    | Some n => for_each (py_range n) loop_body w
    | None => (Raise ValueError, w)
    end.
Proof.
  unfold main. rewrite decide_False by (cbn; lia).
  unfold bind, argv_at, ret. cbn [lookup list_lookup].
  by destruct (py_int arg).
Qed.

Lemma run_script_count (prog arg : string) (n : Z) (w : World) :
  py_int arg = Some n →
  (run_script [prog; arg] w).2 = (for_each (py_range n) loop_body w).2 ∧
  ((for_each (py_range n) loop_body w).1 = Ok tt →
   (run_script [prog; arg] w).1 = Exited 0) ∧
  ((for_each (py_range n) loop_body w).1 = Raise git_error →
   (run_script [prog; arg] w).1 = Uncaught git_error).
Proof.
  intros Hn. unfold run_script. rewrite main_count, Hn.
  destruct (for_each (py_range n) loop_body w) as [[[]|e] w']; cbn.
  - done.
  - split_and!; [by destruct e|done|]. by intros [= ->].
Qed.

(** Whatever the arguments, the script leaves what [mbox] holds in front
    of what it adds. *)
Lemma run_script_grows (argv : list string) (w : World) :
  Str.prefix_of (content w "mbox") (content (run_script argv w).2 "mbox").
Proof.
  assert (Hmain : Str.prefix_of (content w "mbox") (content (main argv w).2 "mbox")).
  { destruct argv as [|prog args].
    { cbn. apply prefix_of_refl. }
    destruct (decide (length args = 1%nat)) as [Hlen|Hlen].
    - destruct args as [|arg [|? ?]]; try done.
      rewrite main_count. destruct (py_int arg) as [n|]; [|apply prefix_of_refl].
      destruct (loop_run (py_range n) w)
        as (evs & texts & blocks & partial & _ & -> & _).
      apply prefix_of_app.
    - rewrite main_usage by done. apply prefix_of_refl. }
  unfold run_script. destruct (main argv w) as [[[]|e] w']; [done|].
  by destruct e.
Qed.

End script.

(** C3: when the argument is [K] and the run makes [K] successful reads
    of the message file and [K] successful step-back commands, the script
    exits with status 0; [mbox] has grown by the [K] blocks of the
    messages visited, in the order of the visit; and the checkout is [K]
    revisions behind where it started. *)
Theorem walk_all_succeed `{Runtime} (prog arg : string) (K : nat) (w : World) :
  py_int arg = Some (Z.of_nat K) →
  count is_read_ok (events_since w (run_script [prog; arg] w).2) = K →
  count is_step_ok (events_since w (run_script [prog; arg] w).2) = K →
  (run_script [prog; arg] w).1 = Exited 0 ∧
  exit_status (run_script [prog; arg] w).1 = 0 ∧
  (∃ texts blocks,
     length blocks = K ∧
     visited K w = Some <$> texts ∧
     block <$> texts = Ok <$> blocks ∧
     content (run_script [prog; arg] w).2 "mbox"
       = content w "mbox" +:+ Str.concat blocks) ∧
  (K ≤ length (history w))%nat ∧
  history (run_script [prog; arg] w).2 = drop K (history w).
Proof.
  intros Hn.
  destruct (run_script_count prog arg _ w Hn) as (-> & Hok & _).
  destruct (loop_run (py_range (Z.of_nat K)) w)
    as (evs & texts & blocks & partial & Htr & Hcont & Hvis & Hblocks & Hend).
  rewrite (events_since_app _ _ _ Htr), length_py_range, Nat2Z.id in *.
  intros _ Hsteps.
  destruct Hend as [(Hr & -> & Hlen & _ & _ & _ & Hle & Hhist)
                   |[(_ & _ & _ & _ & _ & Hlt)|(_ & _ & Hlt)]]; [|lia..].
  rewrite (Hok Hr). split_and!; try done.
  exists texts, blocks. rewrite Hlen in Hvis. rewrite app_nil_r in Hcont.
  by split_and!.
Qed.

(** C4: when a step-back command of the run returns a non-zero status,
    whichever it is, the script ends with the uncaught exception of line
    110; that command is the last thing it did and the only one that
    failed; and [mbox] has grown by one whole block for every step-back
    command issued, the failing one included: the blocks of the messages
    visited, in order, and nothing else. *)
Theorem step_back_failure_is_fatal `{Runtime} (prog arg : string) (n : Z) (w : World) :
  py_int arg = Some n →
  (0 < count is_step_failed (events_since w (run_script [prog; arg] w).2))%nat →
  (run_script [prog; arg] w).1
    = Uncaught (Exception "git returned nonzero.  Maybe that was the last message?") ∧
  exit_status (run_script [prog; arg] w).1 ≠ 0 ∧
  (∃ evs0,
     events_since w (run_script [prog; arg] w).2
       = evs0 ++ [Spawn git_checkout_argv (status_of checkout_failure)] ∧
     status_of checkout_failure ≠ 0 ∧
     count is_step_failed evs0 = 0%nat) ∧
  (∃ texts blocks,
     length blocks = count is_step (events_since w (run_script [prog; arg] w).2) ∧
     visited (length blocks) w = Some <$> texts ∧
     block <$> texts = Ok <$> blocks ∧
     content (run_script [prog; arg] w).2 "mbox"
       = content w "mbox" +:+ Str.concat blocks).
Proof.
  intros Hn.
  destruct (run_script_count prog arg _ w Hn) as (-> & _ & Hfatal).
  destruct (loop_run (py_range n) w)
    as (evs & texts & blocks & partial & Htr & Hcont & Hvis & Hblocks & Hend).
  rewrite (events_since_app _ _ _ Htr) in *. intros Hfailed.
  destruct Hend as [(_ & _ & _ & _ & _ & Hnone & _)
                   |[(Hr & -> & (evs0 & Hlast & Hnone) & Hlen & _)|(_ & Hnone & _)]];
    [lia| |lia].
  rewrite (Hfatal Hr). split_and!; try done.
  - exists evs0. split_and!; [done|apply status_of_nonzero|done].
  - exists texts, blocks. rewrite app_nil_r in Hcont. by split_and!.
Qed.

(** C7: with no argument, or with two or more, the script prints the
    usage text of lines 91-98 on standard output and exits with status 1;
    the files, the checkout and the list of system calls are as before:
    nothing was opened and no command was run. *)
Theorem wrong_arity_usage `{Runtime} (prog : string) (args : list string) (w : World) :
  length args ≠ 1%nat →
  run_script (prog :: args) w =
    (Exited 1,
     {| files := files w; history := history w;
        stdout := stdout w +:+
          "Usage: " +:+ prog +:+ " <count>" +:+ nl +:+
          "Import messages from a LKML-style git repo." +:+ nl +:+
          "Messages will be read from 'm' (how the LKML does it) and appended to 'mbox'." +:+ nl +:+
          "First check out the LAST message you want to read, and then this script will work its way" +:+ nl +:+
          "back for <count> messages." +:+ nl +:+
          "for example, to import the last 1000 messages:" +:+ nl +:+
          "  $ git checkout origin/master" +:+ nl +:+
          "  $ " +:+ prog +:+ " 1000" +:+ nl;
        trace := trace w |}).
Proof.
  intros Hlen. unfold run_script. rewrite main_usage by done.
  unfold usage_text, usage. cbn [fmap list_fmap Str.concat].
  by rewrite !app_assoc, app_nil_r.
Qed.

(** C8: a call of [append_msg_to_mbox], however it ends, leaves what the
    output file held in front of what it adds, keeps an existing file in
    existence and touches no other file; and so what [mbox] held before a
    run of the script is still in front after it. *)
Theorem output_only_grows `{Runtime} :
  (∀ (mf mb : string) (w : World),
     Str.prefix_of (content w mb) (content (append_msg_to_mbox mf mb w).2 mb) ∧
     (∀ c, files w !! mb = Some c →
           ∃ d, files (append_msg_to_mbox mf mb w).2 !! mb = Some (c +:+ d)) ∧
     (∀ p, p ≠ mb → files (append_msg_to_mbox mf mb w).2 !! p = files w !! p)) ∧
  (∀ (argv : list string) (w : World),
     Str.prefix_of (content w "mbox") (content (run_script argv w).2 "mbox")).
Proof. split; [apply append_msg_to_mbox_grows | apply run_script_grows]. Qed.

(** C9: with one argument that [int] reads as a number not above zero,
    [range(count)] is empty: the script exits with status 0 and the world
    is as before, nothing read, nothing written, no command run. *)
Theorem nonpositive_count_does_nothing `{Runtime} (prog arg : string) (n : Z) (w : World) :
  py_int arg = Some n →
  n ≤ 0 →
  run_script [prog; arg] w = (Exited 0, w) ∧
  exit_status (run_script [prog; arg] w).1 = 0 ∧
  events_since w (run_script [prog; arg] w).2 = [].
Proof.
  intros Hn Hle.
  assert (run_script [prog; arg] w = (Exited 0, w)) as ->.
  { unfold run_script. rewrite main_count, Hn. unfold py_range.
    by replace (Z.to_nat n) with 0%nat by lia. }
  split_and!; try done.
  apply events_since_app. by rewrite (right_id_L [] (++)).
Qed.

(** ** The theorems at the example worlds *)

Lemma walk_all_succeed_witness :
  (run_script (H := Example.runtime) ["lkml-to-mbox.py"; "2"] Example.three_revisions).1
    = Exited 0 ∧
  exit_status
    (run_script (H := Example.runtime) ["lkml-to-mbox.py"; "2"] Example.three_revisions).1
    = 0 ∧
  (∃ texts blocks,
     length blocks = 2%nat ∧
     visited 2 Example.three_revisions = Some <$> texts ∧
     block (H := Example.runtime) <$> texts = Ok <$> blocks ∧
     content
       (run_script (H := Example.runtime) ["lkml-to-mbox.py"; "2"] Example.three_revisions).2
       "mbox"
       = content Example.three_revisions "mbox" +:+ Str.concat blocks) ∧
  (2 ≤ length (history Example.three_revisions))%nat ∧
  history
    (run_script (H := Example.runtime) ["lkml-to-mbox.py"; "2"] Example.three_revisions).2
    = drop 2 (history Example.three_revisions).
Proof.
  apply (walk_all_succeed (H := Example.runtime) "lkml-to-mbox.py" "2" 2
           Example.three_revisions);
    vm_compute; reflexivity.
Defined.

Lemma step_back_failure_is_fatal_witness :
  ((run_script (H := Example.fatal_runtime) ["lkml-to-mbox.py"; "5"] Example.three_revisions).1
     = Uncaught (Exception "git returned nonzero.  Maybe that was the last message?") ∧
   exit_status (run_script (H := Example.fatal_runtime) ["lkml-to-mbox.py"; "5"] Example.three_revisions).1 ≠ 0 ∧
   (∃ evs0,
      events_since Example.three_revisions (run_script (H := Example.fatal_runtime) ["lkml-to-mbox.py"; "5"] Example.three_revisions).2
        = evs0 ++ [Spawn git_checkout_argv
                     (status_of (checkout_failure (Runtime := Example.fatal_runtime)))] ∧
      status_of (checkout_failure (Runtime := Example.fatal_runtime)) ≠ 0 ∧
      count is_step_failed evs0 = 0%nat) ∧
   (∃ texts blocks,
      length blocks = count is_step (events_since Example.three_revisions (run_script (H := Example.fatal_runtime) ["lkml-to-mbox.py"; "5"] Example.three_revisions).2) ∧
      visited (length blocks) Example.three_revisions = Some <$> texts ∧
      block (H := Example.fatal_runtime) <$> texts = Ok <$> blocks ∧
      content (run_script (H := Example.fatal_runtime) ["lkml-to-mbox.py"; "5"] Example.three_revisions).2 "mbox"
        = content Example.three_revisions "mbox" +:+ Str.concat blocks)) ∧
  ((run_script (H := Example.killed_runtime) ["lkml-to-mbox.py"; "5"] Example.three_revisions).1
     = Uncaught (Exception "git returned nonzero.  Maybe that was the last message?") ∧
   exit_status (run_script (H := Example.killed_runtime) ["lkml-to-mbox.py"; "5"] Example.three_revisions).1 ≠ 0 ∧
   (∃ evs0,
      events_since Example.three_revisions (run_script (H := Example.killed_runtime) ["lkml-to-mbox.py"; "5"] Example.three_revisions).2
        = evs0 ++ [Spawn git_checkout_argv
                     (status_of (checkout_failure (Runtime := Example.killed_runtime)))] ∧
      status_of (checkout_failure (Runtime := Example.killed_runtime)) ≠ 0 ∧
      count is_step_failed evs0 = 0%nat) ∧
   (∃ texts blocks,
      length blocks = count is_step (events_since Example.three_revisions (run_script (H := Example.killed_runtime) ["lkml-to-mbox.py"; "5"] Example.three_revisions).2) ∧
      visited (length blocks) Example.three_revisions = Some <$> texts ∧
      block (H := Example.killed_runtime) <$> texts = Ok <$> blocks ∧
      content (run_script (H := Example.killed_runtime) ["lkml-to-mbox.py"; "5"] Example.three_revisions).2 "mbox"
        = content Example.three_revisions "mbox" +:+ Str.concat blocks)).
Proof.
  split.
  - apply (step_back_failure_is_fatal (H := Example.fatal_runtime) "lkml-to-mbox.py" "5" 5
             Example.three_revisions).
    + reflexivity.
    + vm_compute. lia.
  - apply (step_back_failure_is_fatal (H := Example.killed_runtime) "lkml-to-mbox.py" "5" 5
             Example.three_revisions).
    + reflexivity.
    + vm_compute. lia.
Defined.

Lemma wrong_arity_usage_witness :
  run_script (H := Example.runtime) ["lkml-to-mbox.py"] Example.three_revisions =
    (Exited 1,
     {| files := files Example.three_revisions;
        history := history Example.three_revisions;
        stdout := stdout Example.three_revisions +:+
          "Usage: " +:+ "lkml-to-mbox.py" +:+ " <count>" +:+ nl +:+
          "Import messages from a LKML-style git repo." +:+ nl +:+
          "Messages will be read from 'm' (how the LKML does it) and appended to 'mbox'." +:+ nl +:+
          "First check out the LAST message you want to read, and then this script will work its way" +:+ nl +:+
          "back for <count> messages." +:+ nl +:+
          "for example, to import the last 1000 messages:" +:+ nl +:+
          "  $ git checkout origin/master" +:+ nl +:+
          "  $ " +:+ "lkml-to-mbox.py" +:+ " 1000" +:+ nl;
        trace := trace Example.three_revisions |}) ∧
  run_script (H := Example.runtime) ["lkml-to-mbox.py"; "1"; "2"] Example.three_revisions =
    (Exited 1,
     {| files := files Example.three_revisions;
        history := history Example.three_revisions;
        stdout := stdout Example.three_revisions +:+
          "Usage: " +:+ "lkml-to-mbox.py" +:+ " <count>" +:+ nl +:+
          "Import messages from a LKML-style git repo." +:+ nl +:+
          "Messages will be read from 'm' (how the LKML does it) and appended to 'mbox'." +:+ nl +:+
          "First check out the LAST message you want to read, and then this script will work its way" +:+ nl +:+
          "back for <count> messages." +:+ nl +:+
          "for example, to import the last 1000 messages:" +:+ nl +:+
          "  $ git checkout origin/master" +:+ nl +:+
          "  $ " +:+ "lkml-to-mbox.py" +:+ " 1000" +:+ nl;
        trace := trace Example.three_revisions |}).
Proof.
  split.
  - apply (wrong_arity_usage (H := Example.runtime) "lkml-to-mbox.py" []
             Example.three_revisions).
    cbn. lia.
  - apply (wrong_arity_usage (H := Example.runtime) "lkml-to-mbox.py" ["1"; "2"]
             Example.three_revisions).
    cbn. lia.
Defined.

Lemma output_only_grows_witness :
  (∃ d, files (append_msg_to_mbox (H := Example.runtime) "m" "mbox" Example.resumed).2
          !! "mbox" = Some (("earlier run" +:+ nl) +:+ d)) ∧
  Str.prefix_of (content Example.resumed "mbox")
    (content (run_script (H := Example.runtime) ["lkml-to-mbox.py"; "7"] Example.resumed).2
       "mbox").
Proof.
  split.
  - apply (proj1 (proj2 (proj1 (output_only_grows (H := Example.runtime))
                           "m" "mbox" Example.resumed))).
    reflexivity.
  - apply (proj2 (output_only_grows (H := Example.runtime))).
Defined.

Lemma nonpositive_count_does_nothing_witness :
  run_script (H := Example.runtime) ["lkml-to-mbox.py"; "-5"] Example.three_revisions
    = (Exited 0, Example.three_revisions) ∧
  exit_status
    (run_script (H := Example.runtime) ["lkml-to-mbox.py"; "-5"]
       Example.three_revisions).1 = 0 ∧
  events_since Example.three_revisions
    (run_script (H := Example.runtime) ["lkml-to-mbox.py"; "-5"]
       Example.three_revisions).2 = [].
Proof.
  apply (nonpositive_count_does_nothing (H := Example.runtime)
           "lkml-to-mbox.py" "-5" (-5) Example.three_revisions).
  - reflexivity.
  - lia.
Defined.

(** ** When the hypotheses of C3 and C4 hold

    The two theorems speak of what happened during the run.  In terms of
    the input: a history with at least as many ancestors as iterations,
    and messages that all have a block, make every read and every
    step-back command succeed; a shorter history makes a step-back command
    fail. *)

Section inputs.
Context `{Runtime}.

Lemma block_ok_inv (text b : string) :
  block text = Ok b →
  ∃ line body,
    generate_envelope_from (message_from_file text) = Ok line ∧
    as_string (message_from_file text) = Ok body ∧
    b = line +:+ nl +:+ body +:+ nl.
Proof.
  unfold block.
  destruct (generate_envelope_from (message_from_file text)) as [line|]; [|done].
  destruct (as_string (message_from_file text)) as [body|]; [|done].
  intros [= <-]. by exists line, body.
Qed.

Lemma visited_succ_inv (n : nat) (w : World) (texts : list string) :
  visited (S n) w = Some <$> texts →
  ∃ text texts',
    texts = text :: texts' ∧ files w !! "m" = Some text ∧
    take n (history w) = Some <$> texts'.
Proof.
  unfold visited. cbn [take]. destruct texts as [|text texts']; [done|].
  intros [= Hm Hrest]. by exists text, texts'.
Qed.

(** The world after an iteration whose step-back command succeeds holds
    the message of the parent in [m]. *)
Lemma loop_succeeds (l : list Z) (w : World) (texts blocks : list string) :
  visited (length l) w = Some <$> texts →
  block <$> texts = Ok <$> blocks →
  (length l ≤ length (history w))%nat →
  ∃ evs,
    (for_each l loop_body w).1 = Ok tt ∧
    trace (for_each l loop_body w).2 = trace w ++ evs ∧
    count is_read_ok evs = length l ∧
    count is_step_ok evs = length l.
Proof.
  revert w texts blocks. induction l as [|i l IH]; intros w texts blocks Hvis Hblocks Hle.
  { exists []. cbn. by rewrite (right_id_L [] (++)). }
  cbn [length] in *.
  apply visited_succ_inv in Hvis as (text & texts' & -> & Hm & Hrest).
  destruct blocks as [|b blocks']; [done|]. cbn in Hblocks.
  injection Hblocks as Hb Hblocks.
  apply block_ok_inv in Hb as (line & body & Hline & Hbody & ->).
  destruct (history w) as [|rev older] eqn:Hhist; [cbn in Hle; lia|].
  rewrite for_each_cons, loop_body_cases, Hm. cbn zeta. rewrite Hline, Hbody, Hhist.
  match goal with
  | |- context [for_each l loop_body ?w0] => set (w1 := w0)
  end.
  assert (files w1 !! "m" = rev) as Hm1.
  { subst w1. cbn. destruct rev; [by rewrite lookup_insert_eq | by rewrite lookup_delete_eq]. }
  destruct (IH w1 texts' blocks') as (evs & Hr & Htr & Hreads & Hsteps).
  - unfold visited. rewrite Hm1. exact Hrest.
  - done.
  - cbn in Hle. change (history w1) with older. lia.
  - exists ([OpenRead "m" true; OpenAppend "mbox"; Spawn git_checkout_argv 0] ++ evs).
    split_and!; [done| | |].
    + rewrite Htr. subst w1. cbn [trace]. by rewrite <- !(assoc_L (++)).
    + cbn. by rewrite Hreads.
    + cbn. by rewrite Hsteps.
Qed.

Lemma loop_fails (l : list Z) (w : World) (texts blocks : list string) :
  (length (history w) < length l)%nat →
  visited (S (length (history w))) w = Some <$> texts →
  block <$> texts = Ok <$> blocks →
  ∃ evs,
    trace (for_each l loop_body w).2 = trace w ++ evs ∧
    (0 < count is_step_failed evs)%nat.
Proof.
  revert w texts blocks. induction l as [|i l IH]; intros w texts blocks Hlt Hvis Hblocks.
  { cbn in Hlt. lia. }
  apply visited_succ_inv in Hvis as (text & texts' & -> & Hm & Hrest).
  destruct blocks as [|b blocks']; [done|]. cbn in Hblocks.
  injection Hblocks as Hb Hblocks.
  apply block_ok_inv in Hb as (line & body & Hline & Hbody & ->).
  rewrite for_each_cons, loop_body_cases, Hm. cbn zeta. rewrite Hline, Hbody.
  destruct (history w) as [|rev older] eqn:Hhist.
  { exists [OpenRead "m" true; OpenAppend "mbox";
            Spawn git_checkout_argv (status_of checkout_failure)].
    destruct (status_of_decide checkout_failure) as [Hok Hfailed].
    split; [done|]. cbn -[status_of]. rewrite Hfailed. lia. }
  match goal with
  | |- context [for_each l loop_body ?w0] => set (w1 := w0)
  end.
  assert (files w1 !! "m" = rev) as Hm1.
  { subst w1. cbn. destruct rev; [by rewrite lookup_insert_eq | by rewrite lookup_delete_eq]. }
  destruct (IH w1 texts' blocks') as (evs & Htr & Hfail).
  - change (history w1) with older. cbn in Hlt. lia.
  - unfold visited. rewrite Hm1. exact Hrest.
  - done.
  - exists ([OpenRead "m" true; OpenAppend "mbox"; Spawn git_checkout_argv 0] ++ evs).
    split.
    + rewrite Htr. subst w1. cbn [trace]. by rewrite <- !(assoc_L (++)).
    + cbn. lia.
Qed.

(** With enough history and messages that all have a block, the run makes
    as many successful reads and step-back commands as its argument
    says. *)
Lemma enough_history_succeeds (prog arg : string) (K : nat) (w : World)
    (texts blocks : list string) :
  py_int arg = Some (Z.of_nat K) →
  visited K w = Some <$> texts →
  block <$> texts = Ok <$> blocks →
  (K ≤ length (history w))%nat →
  count is_read_ok (events_since w (run_script [prog; arg] w).2) = K ∧
  count is_step_ok (events_since w (run_script [prog; arg] w).2) = K.
Proof.
  intros Hn Hvis Hblocks Hle.
  destruct (run_script_count prog arg _ w Hn) as (-> & _).
  destruct (loop_succeeds (py_range (Z.of_nat K)) w texts blocks)
    as (evs & _ & Htr & Hreads & Hsteps);
    rewrite ?length_py_range, ?Nat2Z.id in *; try done.
  by rewrite (events_since_app _ _ _ Htr).
Qed.

(** With fewer ancestors than iterations asked for, and messages that all
    have a block, a step-back command of the run fails. *)
Lemma short_history_fails (prog arg : string) (n : Z) (w : World)
    (texts blocks : list string) :
  py_int arg = Some n →
  (length (history w) < Z.to_nat n)%nat →
  visited (S (length (history w))) w = Some <$> texts →
  block <$> texts = Ok <$> blocks →
  (0 < count is_step_failed (events_since w (run_script [prog; arg] w).2))%nat.
Proof.
  intros Hn Hlt Hvis Hblocks.
  destruct (run_script_count prog arg _ w Hn) as (-> & _).
  destruct (loop_fails (py_range n) w texts blocks) as (evs & Htr & Hfail);
    rewrite ?length_py_range in *; try done.
  by rewrite (events_since_app _ _ _ Htr).
Qed.

End inputs.

(** * Further properties *)

(** ** What the regular expression leaves *)

Section stripping.
Import Re.

Lemma match_here_dotstar (s : string) : ∃ n, match_here [DotStar] s = Some n.
Proof.
  induction s as [|c s [n IH]]; [by exists 0%nat|].
  rewrite match_here_star_cons, IH. destruct (Ascii.eqb c LF); eauto.
Qed.

Lemma match_here_dotstar_line (s : string) :
  Str.mem LF s = false → match_here [DotStar] s = Some (String.length s).
Proof.
  induction s as [|c s IH]; [done|].
  rewrite mem_cons. intros [Hc Hs]%orb_false_elim.
  rewrite match_here_star_cons, (IH Hs). rewrite Ascii.eqb_sym in Hc. by rewrite Hc.
Qed.

(** A character that starts no match is not an angle bracket. *)
Lemma match_alt_none_inv (c : ascii) (s : string) :
  match_alt address_pattern (String c s) = None →
  Ascii.eqb "<" c = false ∧ Ascii.eqb ">" c = false.
Proof.
  unfold address_pattern. rewrite match_alt_two, match_here_star_cons, !match_here_lit_cons.
  intros Hnone. split.
  - destruct (Ascii.eqb_spec "<"%char c) as [<-|]; [|done].
    change (Ascii.eqb "<" LF) with false in Hnone.
    change (Ascii.eqb "<" "<") with true in Hnone.
    by destruct (match_here [DotStar; Lit "<"%char] s).
  - destruct (Ascii.eqb_spec ">"%char c) as [<-|]; [|done].
    destruct (match_here_dotstar s) as [n Hn]. rewrite Hn in Hnone.
    change (Ascii.eqb ">" LF) with false in Hnone.
    change (Ascii.eqb "<" ">") with false in Hnone.
    by destruct (match_here [DotStar; Lit "<"%char] s).
Qed.

Lemma sub_go_no_bracket (skip : nat) (s : string) :
  Str.mem "<" (sub_go address_pattern skip s) = false ∧
  Str.mem ">" (sub_go address_pattern skip s) = false.
Proof.
  revert skip. induction s as [|c s IH]; intros skip; [done|].
  cbn [sub_go]. destruct skip as [|k]; [|apply IH].
  destruct (match_alt address_pattern (String c s)) as [[|n]|] eqn:Hm.
  - by destruct (match_alt_nonempty (String c s)).
  - apply IH.
  - apply match_alt_none_inv in Hm as [Hlt Hgt].
    rewrite !mem_cons, Hlt, Hgt. apply IH.
Qed.

(** Substitution by the empty string only deletes. *)
Lemma sub_go_deletes (pat : pattern) (skip : nat) (s : string) :
  (String.length (sub_go pat skip s) ≤ String.length s)%nat ∧
  ∀ c, Str.mem c (sub_go pat skip s) = true → Str.mem c s = true.
Proof.
  revert skip. induction s as [|c s IH]; intros skip; [done|].
  assert (Hdrop : ∀ k,
    (String.length (sub_go pat k s) ≤ String.length (String c s))%nat ∧
    ∀ c', Str.mem c' (sub_go pat k s) = true → Str.mem c' (String c s) = true).
  { intros k. destruct (IH k) as [Hlen Hmem]. split; [cbn; lia|].
    intros c' Hc'. rewrite mem_cons, (Hmem c' Hc'). apply orb_true_r. }
  assert (Hkeep :
    (String.length (String c (sub_go pat 0 s)) ≤ String.length (String c s))%nat ∧
    ∀ c', Str.mem c' (String c (sub_go pat 0 s)) = true → Str.mem c' (String c s) = true).
  { destruct (IH 0%nat) as [Hlen Hmem]. split; [cbn; lia|].
    intros c'. rewrite !mem_cons. intros [->|Hc']%orb_true_iff; [done|].
    rewrite (Hmem c' Hc'). apply orb_true_r. }
  cbn [sub_go]. destruct skip as [|k]; [|apply Hdrop].
  destruct (match_alt pat (String c s)) as [[|n]|]; [apply Hkeep|apply Hdrop|apply Hkeep].
Qed.

Lemma sub_go_skip_all (pat : pattern) (x : string) :
  sub_go pat (String.length x) x = "".
Proof. induction x as [|c x IH]; [done|]. apply IH. Qed.

(** The text after the last [<] of a line, cut at its first [>]. *)
Lemma sub_empty_last_bracket (pre addr post : string) :
  Str.mem LF pre = false →
  Str.mem "<" addr = false → Str.mem ">" addr = false →
  Str.mem "<" post = false → Str.mem LF post = false →
  sub_empty address_pattern (pre +:+ "<" +:+ addr +:+ ">" +:+ post) = addr.
Proof.
  intros Hpre Hlt Hgt Hpost Hline. unfold sub_empty.
  change (">" +:+ post) with (String ">" post).
  assert (Hrest : Str.mem "<" (addr +:+ String ">" post) = false).
  { by rewrite mem_app, mem_cons, Hlt, Hpost. }
  assert (Htail : sub_go address_pattern 0 (addr +:+ String ">" post) = addr).
  { rewrite sub_go_keep by (done || by rewrite mem_cons, Hpost).
    cbn [sub_go]. unfold address_pattern at 1.
    rewrite match_alt_two, first_alt_fails by by rewrite mem_cons, Hpost.
    rewrite match_here_lit_cons, match_here_dotstar_line by done.
    change (Ascii.eqb ">" ">") with true. cbn [fmap option_fmap option_map].
    by rewrite sub_go_skip_all, app_nil_r. }
  pose proof (first_alt_matches pre _ Hpre Hrest) as Hm.
  change ("<" +:+ addr +:+ String ">" post) with (String "<" (addr +:+ String ">" post)).
  destruct pre as [|c pre].
  - change ("" +:+ String "<" (addr +:+ String ">" post))
      with (String "<" (addr +:+ String ">" post)) in *.
    cbn [sub_go]. unfold address_pattern at 1. by rewrite match_alt_two, Hm.
  - rewrite app_cons in *. cbn [sub_go].
    unfold address_pattern at 1. rewrite match_alt_two, Hm.
    cbn [String.length]. by rewrite sub_go_skip.
Qed.

End stripping.

(** X1: whatever the [From] field holds, the address put in the envelope
    line has no angle bracket left. *)
Theorem address_has_no_bracket (msg : Message) :
  Str.mem "<" (from_address msg) = false ∧
  Str.mem ">" (from_address msg) = false.
Proof. apply sub_go_no_bracket. Qed.

(** X2: for a [From] field with a value that is not empty, the address
    is made of characters of that value and is not longer; so a value on
    one line gives an address on one line. *)
Theorem address_only_deletes (msg : Message) (v : string) :
  msg_get msg "From" = Some v →
  v ≠ "" →
  (String.length (from_address msg) ≤ String.length v)%nat ∧
  (∀ c, Str.mem c (from_address msg) = true → Str.mem c v = true) ∧
  (Str.mem LF v = false → Str.mem LF (from_address msg) = false).
Proof.
  intros Hget Hv. unfold from_address, Re.sub_empty.
  rewrite Hget, or_default_some by done.
  destruct (sub_go_deletes address_pattern 0 v) as [Hlen Hmem].
  split_and!; [done..|].
  intros Hline. destruct (Str.mem LF (Re.sub_go address_pattern 0 v)) eqn:Hc; [|done].
  by rewrite (Hmem _ Hc) in Hline.
Qed.

Lemma address_only_deletes_witness :
  (String.length (from_address msg_bracketed_from)
   ≤ String.length ("J Doe" +:+ " <" +:+ "jdoe@x.com" +:+ ">"))%nat ∧
  (∀ c, Str.mem c (from_address msg_bracketed_from) = true →
        Str.mem c ("J Doe" +:+ " <" +:+ "jdoe@x.com" +:+ ">") = true) ∧
  (Str.mem LF ("J Doe" +:+ " <" +:+ "jdoe@x.com" +:+ ">") = false →
   Str.mem LF (from_address msg_bracketed_from) = false).
Proof.
  apply (address_only_deletes msg_bracketed_from).
  - reflexivity.
  - discriminate.
Defined.

(** X3: when the value of [From] is on one line, the address is what
    stands between the last [<] and the [>] that follows it: the text
    after that [>] is dropped, and of several bracketed addresses the last
    one is taken. *)
Theorem last_bracketed_address (msg : Message) (pre addr post : string) :
  msg_get msg "From" = Some (pre +:+ "<" +:+ addr +:+ ">" +:+ post) →
  Str.mem LF pre = false →
  Str.mem "<" addr = false → Str.mem ">" addr = false →
  Str.mem "<" post = false → Str.mem LF post = false →
  from_address msg = addr.
Proof.
  intros Hget Hpre Hlt Hgt Hpost Hline. unfold from_address.
  rewrite Hget, or_default_some by by destruct pre.
  by apply sub_empty_last_bracket.
Qed.

Lemma last_bracketed_address_witness :
  from_address msg_two_addresses = "b@y.org".
Proof.
  apply (last_bracketed_address msg_two_addresses "A <a@x.com>, B " "b@y.org" " (list)");
    reflexivity.
Defined.

(** X4: an address that is not empty is a fixed point: a message that
    carries it as its [From] value gets the same address. *)
Theorem address_round_trip (msg msg' : Message) :
  from_address msg ≠ "" →
  msg_get msg' "From" = Some (from_address msg) →
  from_address msg' = from_address msg.
Proof.
  intros Hne Hget.
  destruct (sub_go_no_bracket 0 (or_default (msg_get msg "From") fake_from_line))
    as [Hlt Hgt].
  unfold from_address at 1. rewrite Hget, or_default_some by done.
  by apply sub_empty_bare.
Qed.

Lemma address_round_trip_witness :
  from_address msg_readdressed = from_address msg_two_addresses.
Proof.
  apply (address_round_trip msg_two_addresses msg_readdressed).
  - vm_compute. discriminate.
  - reflexivity.
Defined.

(** ** How a call of [append_msg_to_mbox] fails *)

(** X5: when the message file does not exist the call raises
    [FileNotFoundError]; the output file is not opened, so it is neither
    created nor changed, and the failed open is the only system call. *)
Theorem append_missing_message `{Runtime} (mf mb : string) (w : World) :
  files w !! mf = None →
  append_msg_to_mbox mf mb w =
    (Raise (FileNotFoundError mf),
     {| files := files w; history := history w; stdout := stdout w;
        trace := trace w ++ [OpenRead mf false] |}).
Proof. intros Hm. by rewrite append_msg_to_mbox_cases, Hm. Qed.

Lemma append_missing_message_witness :
  append_msg_to_mbox (H := Example.runtime) "m" "mbox" (Example.world None []) =
    (Raise (FileNotFoundError "m"),
     {| files := files (Example.world None []);
        history := history (Example.world None []);
        stdout := stdout (Example.world None []);
        trace := trace (Example.world None []) ++ [OpenRead "m" false] |}).
Proof.
  apply (append_missing_message (H := Example.runtime) "m" "mbox" (Example.world None [])).
  reflexivity.
Defined.

(** X6: when the envelope line of the message cannot be made, the
    exception of [generate_envelope_from] leaves the call before the
    output file is opened: no file is created or changed, and reading the
    message is the only system call. *)
Theorem append_envelope_error `{Runtime} (mf mb : string) (w : World) (text : string) (e : exn) :
  files w !! mf = Some text →
  generate_envelope_from (message_from_file text) = Raise e →
  append_msg_to_mbox mf mb w =
    (Raise e,
     {| files := files w; history := history w; stdout := stdout w;
        trace := trace w ++ [OpenRead mf true] |}).
Proof. intros Hm He. rewrite append_msg_to_mbox_cases, Hm. cbn zeta. by rewrite He. Qed.

Lemma append_envelope_error_witness :
  append_msg_to_mbox (H := Example.runtime) "m" "mbox"
    (Example.world (Some Example.undated) []) =
    (Raise TypeError,
     {| files := files (Example.world (Some Example.undated) []);
        history := history (Example.world (Some Example.undated) []);
        stdout := stdout (Example.world (Some Example.undated) []);
        trace := trace (Example.world (Some Example.undated) []) ++ [OpenRead "m" true] |}).
Proof.
  apply (append_envelope_error (H := Example.runtime) "m" "mbox"
           (Example.world (Some Example.undated) []) Example.undated TypeError);
    reflexivity.
Defined.

(** X7: the envelope line is written before the message is serialized:
    when [as_string] raises, the output file has already grown by the
    envelope line and its line feed, and by nothing else. *)
Theorem append_serialize_error `{Runtime} (mf mb : string) (w : World)
    (text line : string) (e : exn) :
  files w !! mf = Some text →
  generate_envelope_from (message_from_file text) = Ok line →
  as_string (message_from_file text) = Raise e →
  (append_msg_to_mbox mf mb w).1 = Raise e ∧
  content (append_msg_to_mbox mf mb w).2 mb = content w mb +:+ line +:+ nl ∧
  (∀ p, p ≠ mb → files (append_msg_to_mbox mf mb w).2 !! p = files w !! p) ∧
  trace (append_msg_to_mbox mf mb w).2 = trace w ++ [OpenRead mf true; OpenAppend mb].
Proof.
  intros Hm Hline He. rewrite append_msg_to_mbox_cases, Hm. cbn zeta.
  rewrite Hline, He. cbn [fst snd]. rewrite content_insert_eq.
  split_and!; try done. intros p Hp. cbn. by rewrite lookup_insert_ne.
Qed.

Lemma append_serialize_error_witness :
  (append_msg_to_mbox (H := Example.strict_runtime) "m" "mbox"
     (Example.world (Some (nl +:+ "Hello")) [])).1 = Raise (LibraryError "as_string") ∧
  content (append_msg_to_mbox (H := Example.strict_runtime) "m" "mbox"
             (Example.world (Some (nl +:+ "Hello")) [])).2 "mbox"
    = content (Example.world (Some (nl +:+ "Hello")) []) "mbox"
      +:+ "From From: unknown@example.com Sat Jan  3 12:34:56 1970" +:+ nl ∧
  (∀ p, p ≠ "mbox" →
        files (append_msg_to_mbox (H := Example.strict_runtime) "m" "mbox"
                 (Example.world (Some (nl +:+ "Hello")) [])).2 !! p
        = files (Example.world (Some (nl +:+ "Hello")) []) !! p) ∧
  trace (append_msg_to_mbox (H := Example.strict_runtime) "m" "mbox"
           (Example.world (Some (nl +:+ "Hello")) [])).2
    = trace (Example.world (Some (nl +:+ "Hello")) [])
      ++ [OpenRead "m" true; OpenAppend "mbox"].
Proof.
  apply (append_serialize_error (H := Example.strict_runtime) "m" "mbox"
           (Example.world (Some (nl +:+ "Hello")) []) (nl +:+ "Hello"));
    reflexivity.
Defined.

(** ** Every run of the loop, however it ends *)

Section run_state.
Context `{Runtime}.

(** The state after a run of the loop, in terms of its system calls: the
    checkout is as many revisions back as step-back commands succeeded and
    [m] holds the message of that revision; no file but [m] and [mbox] has
    changed; one progress field was printed for every iteration begun; and
    the calls of an iteration come in the order read, append, step back. *)
Lemma loop_state (l : list Z) (w : World) :
  ∃ evs,
    trace (for_each l loop_body w).2 = trace w ++ evs ∧
    history (for_each l loop_body w).2 = drop (count is_step_ok evs) (history w) ∧
    (count is_step_ok evs ≤ length (history w))%nat ∧
    (files w !! "m" :: history w) !! count is_step_ok evs
      = Some (files (for_each l loop_body w).2 !! "m") ∧
    (∀ p, p ≠ "m" → p ≠ "mbox" →
          files (for_each l loop_body w).2 !! p = files w !! p) ∧
    stdout (for_each l loop_body w).2
      = stdout w +:+ Str.concat (progress <$> take (count is_read evs) l) ∧
    (count is_read evs ≤ length l)%nat ∧
    (count is_step_ok evs ≤ count is_step evs)%nat ∧
    (count is_step evs ≤ count is_append evs)%nat ∧
    (count is_append evs ≤ count is_read_ok evs)%nat ∧
    (count is_read_ok evs ≤ count is_read evs)%nat.
Proof.
  revert w. induction l as [|i l IH]; intros w.
  { exists []. cbn. rewrite app_nil_r, (right_id_L [] (++)).
    split_and!; try done; lia. }
  rewrite for_each_cons, loop_body_cases.
  destruct (files w !! "m") as [text|] eqn:Hm; cycle 1.
  { exists [OpenRead "m" false]. cbn. rewrite Hm, !app_nil_r.
    split_and!; try done; lia. }
  cbn zeta.
  destruct (generate_envelope_from (message_from_file text)) as [line|e]; cycle 1.
  { exists [OpenRead "m" true]. cbn. rewrite Hm, !app_nil_r.
    split_and!; try done; lia. }
  destruct (as_string (message_from_file text)) as [body|e]; cycle 1.
  { exists [OpenRead "m" true; OpenAppend "mbox"]. cbn. rewrite !app_nil_r.
    split_and!; try done; try lia.
    - by rewrite lookup_insert_ne, Hm.
    - intros p _ Hp. by rewrite lookup_insert_ne. }
  destruct (history w) as [|rev older] eqn:Hhist.
  { exists [OpenRead "m" true; OpenAppend "mbox";
            Spawn git_checkout_argv (status_of checkout_failure)].
    destruct (status_of_decide checkout_failure) as [Hok Hfailed].
    cbn -[status_of]. rewrite Hok. cbn. rewrite !app_nil_r.
    split_and!; try done; try lia.
    - by rewrite lookup_insert_ne, Hm.
    - intros p _ Hp. by rewrite lookup_insert_ne. }
  cbn zeta.
  match goal with
  | |- context [for_each l loop_body ?w0] => set (w1 := w0)
  end.
  assert (files w1 !! "m" = rev) as Hm1.
  { subst w1. cbn. destruct rev; [by rewrite lookup_insert_eq | by rewrite lookup_delete_eq]. }
  assert (∀ p, p ≠ "m" → p ≠ "mbox" → files w1 !! p = files w !! p) as Hframe1.
  { intros p Hp1 Hp2. subst w1. cbn. destruct rev.
    - by rewrite !lookup_insert_ne.
    - by rewrite lookup_delete_ne, lookup_insert_ne. }
  destruct (IH w1)
    as (evs & Htr & Hhist' & Hle & Hcur & Hframe & Hout & Hreads & Hc1 & Hc2 & Hc3 & Hc4).
  rewrite Hm1 in Hcur. change (history w1) with older in *.
  exists ([OpenRead "m" true; OpenAppend "mbox"; Spawn git_checkout_argv 0] ++ evs).
  cbn [app count is_read is_read_ok is_append is_step is_step_ok].
  change (bool_decide (0%Z = 0%Z)) with true. cbn iota.
  split_and!; cbn [length Nat.add]; try lia.
  - rewrite Htr. subst w1. cbn [trace]. by rewrite <- !(assoc_L (++)).
  - done.
  - done.
  - intros p Hp1 Hp2. by rewrite Hframe, Hframe1.
  - rewrite Hout. subst w1. cbn. by rewrite app_assoc.
Qed.

(** A run of the script either is the loop, or changes nothing but
    [stdout]. *)
Lemma main_shape (argv : list string) (w : World) :
  (∃ n, main argv w = for_each (py_range n) loop_body w) ∨
  (files (main argv w).2 = files w ∧ history (main argv w).2 = history w ∧
   trace (main argv w).2 = trace w).
Proof.
  destruct argv as [|prog args]; [by right|].
  destruct (decide (length args = 1%nat)) as [Hlen|Hlen].
  - destruct args as [|arg [|? ?]]; try done.
    rewrite main_count. destruct (py_int arg) as [n|]; [left; by exists n | by right].
  - right. by rewrite main_usage.
Qed.

Lemma run_script_world (argv : list string) (w : World) :
  (run_script argv w).2 = (main argv w).2.
Proof. unfold run_script. destruct (main argv w) as [[[]|e] w']; [done|]. by destruct e. Qed.

End run_state.

Section run_prefix.
Context `{Runtime}.

Lemma events_since_same (w w' : World) : trace w' = trace w → events_since w w' = [].
Proof. intros Htr. apply events_since_app. by rewrite Htr, (right_id_L [] (++)). Qed.

Lemma count_app (p : event → bool) (l1 l2 : list event) :
  count p (l1 ++ l2) = (count p l1 + count p l2)%nat.
Proof. induction l1 as [|e l1 IH]; [done|]. cbn. rewrite IH. lia. Qed.

Lemma take_py_range (r : nat) (n : Z) :
  (r ≤ Z.to_nat n)%nat → take r (py_range n) = indices r.
Proof.
  intros Hr. unfold py_range, indices.
  rewrite <- fmap_take, take_seq. by replace (r `min` Z.to_nat n)%nat with r by lia.
Qed.

(** As long as the messages visited have a block and there is history
    left, the loop goes on: after [j] iterations their blocks are in
    [mbox], the checkout is [j] revisions back, and the rest of the loop
    runs from there. *)
Lemma loop_prefix (j : nat) (l : list Z) (w : World) (texts blocks : list string) :
  (j ≤ length l)%nat →
  visited j w = Some <$> texts →
  block <$> texts = Ok <$> blocks →
  (j ≤ length (history w))%nat →
  ∃ wj evs,
    for_each l loop_body w = for_each (drop j l) loop_body wj ∧
    content wj "mbox" = content w "mbox" +:+ Str.concat blocks ∧
    history wj = drop j (history w) ∧
    (files w !! "m" :: history w) !! j = Some (files wj !! "m") ∧
    trace wj = trace w ++ evs ∧
    count is_step_ok evs = j ∧ count is_step_failed evs = 0%nat ∧
    count is_append evs = j.
Proof.
  revert l w texts blocks.
  induction j as [|j IH]; intros l w texts blocks Hl Hvis Hblocks Hle.
  { exists w, []. destruct texts; [|done]. destruct blocks; [|done].
    cbn. rewrite app_nil_r, (right_id_L [] (++)). by split_and!. }
  destruct l as [|i l]; [cbn in Hl; lia|].
  apply visited_succ_inv in Hvis as (text & texts' & -> & Hm & Hrest).
  destruct blocks as [|b blocks']; [done|]. cbn in Hblocks.
  injection Hblocks as Hb Hblocks.
  apply block_ok_inv in Hb as (line & body & Hline & Hbody & ->).
  destruct (history w) as [|rev older] eqn:Hhist; [cbn in Hle; lia|].
  rewrite for_each_cons, loop_body_cases, Hm. cbn zeta. rewrite Hline, Hbody, Hhist.
  match goal with
  | |- context [for_each l loop_body ?w0] => set (w1 := w0)
  end.
  assert (files w1 !! "m" = rev) as Hm1.
  { subst w1. cbn. destruct rev; [by rewrite lookup_insert_eq | by rewrite lookup_delete_eq]. }
  assert (content w1 "mbox" = content w "mbox" +:+ line +:+ nl +:+ body +:+ nl) as Hc1.
  { subst w1. unfold content at 1. cbn. destruct rev.
    - by rewrite lookup_insert_ne, lookup_insert_eq.
    - by rewrite lookup_delete_ne, lookup_insert_eq. }
  destruct (IH l w1 texts' blocks')
    as (wj & evs & Hrun & Hcont & Hhist' & Hcur & Htr & Hok & Hfail & Happ).
  - cbn in Hl. lia.
  - unfold visited. rewrite Hm1. exact Hrest.
  - done.
  - change (history w1) with older. cbn in Hle. lia.
  - exists wj, ([OpenRead "m" true; OpenAppend "mbox"; Spawn git_checkout_argv 0] ++ evs).
    rewrite Hm1 in Hcur. change (history w1) with older in *.
    split_and!; try done.
    + rewrite Hcont, Hc1. cbn [Str.concat]. by rewrite !app_assoc.
    + rewrite Htr. subst w1. cbn [trace]. by rewrite <- !(assoc_L (++)).
    + cbn. by rewrite Hok.
    + cbn. by rewrite Happ.
Qed.

(** The iteration at which the loop stops when the message visited there
    has no block to give: its exception ends the run with the blocks of
    the messages before it in [mbox] and the checkout on that message. *)
Lemma loop_stops_at (j : nat) (l : list Z) (w : World) (texts blocks : list string)
    (cur : option string) (e : exn) :
  (j < length l)%nat →
  visited j w = Some <$> texts →
  block <$> texts = Ok <$> blocks →
  (files w !! "m" :: history w) !! j = Some cur →
  match cur with
  | None => e = FileNotFoundError "m"
  | Some text => generate_envelope_from (message_from_file text) = Raise e
  end →
  (for_each l loop_body w).1 = Raise e ∧
  content (for_each l loop_body w).2 "mbox" = content w "mbox" +:+ Str.concat blocks ∧
  history (for_each l loop_body w).2 = drop j (history w) ∧
  files (for_each l loop_body w).2 !! "m" = cur ∧
  ∃ evs, trace (for_each l loop_body w).2 = trace w ++ evs ∧
         count is_step_ok evs = j ∧ count is_step_failed evs = 0%nat ∧
         count is_append evs = j.
Proof.
  intros Hl Hvis Hblocks Hcur He.
  assert (j ≤ length (history w))%nat as Hle.
  { apply lookup_lt_Some in Hcur. cbn in Hcur. lia. }
  destruct (loop_prefix j l w texts blocks)
    as (wj & evs & Hrun & Hcont & Hhist & Hcur' & Htr & Hok & Hfail & Happ); [lia|done..|].
  rewrite Hcur in Hcur'. injection Hcur' as Hcur'.
  destruct (drop j l) as [|i l'] eqn:Hdrop.
  { apply (f_equal length) in Hdrop. rewrite length_drop in Hdrop. cbn in Hdrop. lia. }
  rewrite Hrun, for_each_cons, loop_body_cases, <- Hcur'.
  destruct cur as [text|].
  - cbn zeta. rewrite He. unfold content at 1. cbn [fst snd files history trace].
    fold (content wj "mbox"). split_and!; try done.
    exists (evs ++ [OpenRead "m" true]). rewrite Htr, !count_app.
    split_and!; [by rewrite <- (assoc_L (++))|cbn; lia..].
  - subst e. unfold content at 1. cbn [fst snd files history trace].
    fold (content wj "mbox"). split_and!; try done.
    exists (evs ++ [OpenRead "m" false]). rewrite Htr, !count_app.
    split_and!; [by rewrite <- (assoc_L (++))|cbn; lia..].
Qed.

End run_prefix.

(** ** The script, whatever its arguments *)

(** X8: with one argument that [int] rejects, the script ends with an
    uncaught [ValueError] and status 1 before it does anything: no usage
    text, no file read or written, no command run. *)
Theorem invalid_count_crashes `{Runtime} (prog arg : string) (w : World) :
  py_int arg = None →
  run_script [prog; arg] w = (Uncaught ValueError, w) ∧
  exit_status (run_script [prog; arg] w).1 = 1.
Proof. intros Hn. unfold run_script. by rewrite main_count, Hn. Qed.

Lemma invalid_count_crashes_witness :
  run_script (H := Example.runtime) ["lkml-to-mbox.py"; "ten"] Example.three_revisions
    = (Uncaught ValueError, Example.three_revisions) ∧
  exit_status
    (run_script (H := Example.runtime) ["lkml-to-mbox.py"; "ten"] Example.three_revisions).1
    = 1.
Proof.
  apply (invalid_count_crashes (H := Example.runtime) "lkml-to-mbox.py" "ten"
           Example.three_revisions).
  reflexivity.
Defined.

(** X9: however a run ends, the checkout is exactly as many revisions
    back as step-back commands have succeeded, that many revisions exist,
    and the message file is the one of the revision reached. *)
Theorem checkout_follows_steps `{Runtime} (argv : list string) (w : World) :
  history (run_script argv w).2
    = drop (count is_step_ok (events_since w (run_script argv w).2)) (history w) ∧
  (count is_step_ok (events_since w (run_script argv w).2) ≤ length (history w))%nat ∧
  (files w !! "m" :: history w) !! count is_step_ok (events_since w (run_script argv w).2)
    = Some (files (run_script argv w).2 !! "m").
Proof.
  rewrite run_script_world.
  destruct (main_shape argv w) as [[n ->]|(Hfiles & Hhist & Htr)].
  - destruct (loop_state (py_range n) w) as (evs & Htr & Hhist & Hle & Hcur & _).
    by rewrite (events_since_app _ _ _ Htr).
  - rewrite (events_since_same _ _ Htr), Hfiles, Hhist. cbn. split_and!; [done|lia|done].
Qed.

(** X10: however a run ends, every file of the working directory other
    than [m] and [mbox] is as it was. *)
Theorem other_files_untouched `{Runtime} (argv : list string) (w : World) (p : string) :
  p ≠ "m" → p ≠ "mbox" →
  files (run_script argv w).2 !! p = files w !! p.
Proof.
  intros Hp1 Hp2. rewrite run_script_world.
  destruct (main_shape argv w) as [[n ->]|(Hfiles & _)].
  - destruct (loop_state (py_range n) w) as (evs & _ & _ & _ & _ & Hframe & _).
    by apply Hframe.
  - by rewrite Hfiles.
Qed.

Lemma other_files_untouched_witness :
  files (run_script (H := Example.runtime) ["lkml-to-mbox.py"; "4"] Example.with_readme).2
    !! "README"
  = files Example.with_readme !! "README".
Proof.
  apply (other_files_untouched (H := Example.runtime) ["lkml-to-mbox.py"; "4"]
           Example.with_readme "README");
    discriminate.
Defined.

(** X11: with a count argument, what the run adds to standard output is
    one progress field for every iteration begun, for the indices from 0
    upward, and nothing else: the index in decimal, with spaces in front
    of it up to a width of ten, and a carriage return.  The iterations
    begun are as many as attempts to open the message file, never more
    than the count. *)
Theorem progress_output `{Runtime} (prog arg : string) (n : Z) (w : World) :
  py_int arg = Some n →
  stdout (run_script [prog; arg] w).2
    = stdout w +:+
      Str.concat
        ((λ i, Str.spaces (10 - String.length (pretty i)) +:+ pretty i +:+ String "013" "")
           <$> indices (count is_read (events_since w (run_script [prog; arg] w).2))) ∧
  (count is_read (events_since w (run_script [prog; arg] w).2) ≤ Z.to_nat n)%nat.
Proof.
  intros Hn. rewrite run_script_world, main_count, Hn.
  destruct (loop_state (py_range n) w)
    as (evs & Htr & _ & _ & _ & _ & Hout & Hreads & _).
  rewrite (events_since_app _ _ _ Htr). rewrite length_py_range in Hreads.
  rewrite Hout, take_py_range by done. split; [|done].
  f_equal. f_equal. apply list_fmap_ext. intros _ i _.
  unfold progress, Str.rjust, CR. by rewrite app_assoc.
Qed.

Lemma progress_output_witness :
  stdout (run_script (H := Example.runtime) ["lkml-to-mbox.py"; "5"] Example.three_revisions).2
    = "         0" +:+ String "013" "" +:+
      "         1" +:+ String "013" "" +:+
      "         2" +:+ String "013" "" ∧
  (count is_read
     (events_since Example.three_revisions
        (run_script (H := Example.runtime) ["lkml-to-mbox.py"; "5"]
           Example.three_revisions).2) ≤ Z.to_nat 5)%nat.
Proof.
  apply (progress_output (H := Example.runtime) "lkml-to-mbox.py" "5" 5
           Example.three_revisions).
  reflexivity.
Defined.

(** X12: in every run the system calls keep the order of the loop body:
    there are never more step-back commands than openings of [mbox], never
    more openings of [mbox] than successful reads of [m]; so the checkout
    is never moved away from a message that has not been read and given
    its place in [mbox]. *)
Theorem calls_in_order `{Runtime} (argv : list string) (w : World) :
  (count is_step_ok (events_since w (run_script argv w).2)
   ≤ count is_step (events_since w (run_script argv w).2))%nat ∧
  (count is_step (events_since w (run_script argv w).2)
   ≤ count is_append (events_since w (run_script argv w).2))%nat ∧
  (count is_append (events_since w (run_script argv w).2)
   ≤ count is_read_ok (events_since w (run_script argv w).2))%nat ∧
  (count is_read_ok (events_since w (run_script argv w).2)
   ≤ count is_read (events_since w (run_script argv w).2))%nat.
Proof.
  rewrite run_script_world.
  destruct (main_shape argv w) as [[n ->]|(_ & _ & Htr)].
  - destruct (loop_state (py_range n) w)
      as (evs & Htr & _ & _ & _ & _ & _ & _ & Hc1 & Hc2 & Hc3 & Hc4).
    by rewrite (events_since_app _ _ _ Htr).
  - rewrite (events_since_same _ _ Htr). cbn. lia.
Qed.

(** X13: when the message file is missing at the revision that the run
    reaches after [j] iterations, the run ends there with an uncaught
    [FileNotFoundError] and status 1: [mbox] holds the blocks of the [j]
    messages before, the checkout stays [j] revisions back, and no
    step-back command has failed. *)
Theorem missing_revision_stops_run `{Runtime} (prog arg : string) (n : Z) (w : World)
    (j : nat) (texts blocks : list string) :
  py_int arg = Some n →
  (j < Z.to_nat n)%nat →
  visited j w = Some <$> texts →
  block <$> texts = Ok <$> blocks →
  (files w !! "m" :: history w) !! j = Some None →
  (run_script [prog; arg] w).1 = Uncaught (FileNotFoundError "m") ∧
  exit_status (run_script [prog; arg] w).1 = 1 ∧
  content (run_script [prog; arg] w).2 "mbox" = content w "mbox" +:+ Str.concat blocks ∧
  history (run_script [prog; arg] w).2 = drop j (history w) ∧
  count is_step_ok (events_since w (run_script [prog; arg] w).2) = j ∧
  count is_step_failed (events_since w (run_script [prog; arg] w).2) = 0%nat ∧
  count is_append (events_since w (run_script [prog; arg] w).2) = j.
Proof.
  intros Hn Hj Hvis Hblocks Hcur.
  destruct (loop_stops_at j (py_range n) w texts blocks None (FileNotFoundError "m"))
    as (Hr & Hcont & Hhist & _ & evs & Htr & Hok & Hfail & Happ);
    rewrite ?length_py_range; try done.
  rewrite run_script_world, main_count, Hn, (events_since_app _ _ _ Htr).
  assert ((run_script [prog; arg] w).1 = Uncaught (FileNotFoundError "m")) as ->.
  { unfold run_script. rewrite main_count, Hn.
    destruct (for_each (py_range n) loop_body w) as [r w']. cbn in Hr. by subst r. }
  by split_and!.
Qed.

Lemma missing_revision_stops_run_witness :
  (run_script (H := Example.runtime) ["lkml-to-mbox.py"; "3"] Example.gap_behind).1
    = Uncaught (FileNotFoundError "m") ∧
  exit_status (run_script (H := Example.runtime) ["lkml-to-mbox.py"; "3"] Example.gap_behind).1
    = 1 ∧
  content (run_script (H := Example.runtime) ["lkml-to-mbox.py"; "3"] Example.gap_behind).2
    "mbox" = content Example.gap_behind "mbox" +:+ Str.concat [Example.hello_block] ∧
  history (run_script (H := Example.runtime) ["lkml-to-mbox.py"; "3"] Example.gap_behind).2
    = drop 1 (history Example.gap_behind) ∧
  count is_step_ok
    (events_since Example.gap_behind
       (run_script (H := Example.runtime) ["lkml-to-mbox.py"; "3"] Example.gap_behind).2)
    = 1%nat ∧
  count is_step_failed
    (events_since Example.gap_behind
       (run_script (H := Example.runtime) ["lkml-to-mbox.py"; "3"] Example.gap_behind).2)
    = 0%nat ∧
  count is_append
    (events_since Example.gap_behind
       (run_script (H := Example.runtime) ["lkml-to-mbox.py"; "3"] Example.gap_behind).2)
    = 1%nat.
Proof.
  apply (missing_revision_stops_run (H := Example.runtime) "lkml-to-mbox.py" "3" 3
           Example.gap_behind 1 [Example.hello +:+ nl] [Example.hello_block]).
  - reflexivity.
  - vm_compute. lia.
  - reflexivity.
  - reflexivity.
  - reflexivity.
Defined.

(** X14: when the envelope line of the message that the run reaches
    after [j] iterations cannot be made, the exception of
    [generate_envelope_from] ends the run uncaught, with status 1:
    [mbox] holds the blocks of the [j] messages before and nothing of
    this one, and the checkout stays on it. *)
Theorem envelope_error_stops_run `{Runtime} (prog arg : string) (n : Z) (w : World)
    (j : nat) (texts blocks : list string) (text : string) (e : exn) :
  py_int arg = Some n →
  (j < Z.to_nat n)%nat →
  visited j w = Some <$> texts →
  block <$> texts = Ok <$> blocks →
  (files w !! "m" :: history w) !! j = Some (Some text) →
  generate_envelope_from (message_from_file text) = Raise e →
  (∀ c, e ≠ SystemExit c) →
  (run_script [prog; arg] w).1 = Uncaught e ∧
  exit_status (run_script [prog; arg] w).1 = 1 ∧
  content (run_script [prog; arg] w).2 "mbox" = content w "mbox" +:+ Str.concat blocks ∧
  history (run_script [prog; arg] w).2 = drop j (history w) ∧
  files (run_script [prog; arg] w).2 !! "m" = Some text ∧
  count is_step_failed (events_since w (run_script [prog; arg] w).2) = 0%nat ∧
  count is_append (events_since w (run_script [prog; arg] w).2) = j.
Proof.
  intros Hn Hj Hvis Hblocks Hcur He Hexit.
  destruct (loop_stops_at j (py_range n) w texts blocks (Some text) e)
    as (Hr & Hcont & Hhist & Hm & evs & Htr & Hok & Hfail & Happ);
    rewrite ?length_py_range; try done.
  rewrite run_script_world, main_count, Hn, (events_since_app _ _ _ Htr).
  assert ((run_script [prog; arg] w).1 = Uncaught e) as ->.
  { unfold run_script. rewrite main_count, Hn.
    destruct (for_each (py_range n) loop_body w) as [r w']. cbn in Hr. subst r.
    destruct e; try done. by destruct (Hexit code). }
  by split_and!.
Qed.

Lemma envelope_error_stops_run_witness :
  (run_script (H := Example.runtime) ["lkml-to-mbox.py"; "3"] Example.bad_date_behind).1
    = Uncaught TypeError ∧
  exit_status
    (run_script (H := Example.runtime) ["lkml-to-mbox.py"; "3"] Example.bad_date_behind).1
    = 1 ∧
  content
    (run_script (H := Example.runtime) ["lkml-to-mbox.py"; "3"] Example.bad_date_behind).2
    "mbox" = content Example.bad_date_behind "mbox" +:+ Str.concat [Example.hello_block] ∧
  history
    (run_script (H := Example.runtime) ["lkml-to-mbox.py"; "3"] Example.bad_date_behind).2
    = drop 1 (history Example.bad_date_behind) ∧
  files
    (run_script (H := Example.runtime) ["lkml-to-mbox.py"; "3"] Example.bad_date_behind).2
    !! "m" = Some Example.undated ∧
  count is_step_failed
    (events_since Example.bad_date_behind
       (run_script (H := Example.runtime) ["lkml-to-mbox.py"; "3"]
          Example.bad_date_behind).2) = 0%nat ∧
  count is_append
    (events_since Example.bad_date_behind
       (run_script (H := Example.runtime) ["lkml-to-mbox.py"; "3"]
          Example.bad_date_behind).2) = 1%nat.
Proof.
  apply (envelope_error_stops_run (H := Example.runtime) "lkml-to-mbox.py" "3" 3
           Example.bad_date_behind 1 [Example.hello +:+ nl] [Example.hello_block]
           Example.undated TypeError).
  - reflexivity.
  - vm_compute. lia.
  - reflexivity.
  - reflexivity.
  - reflexivity.
  - reflexivity.
  - discriminate.
Defined.

(** X15: when the script falls off its end without an exception, the
    work asked for was done in full: as many successful reads and
    step-back commands as the count says (none for a count below zero),
    no failed command, the blocks of the messages visited added to [mbox]
    in order, and the checkout that many revisions back. *)
Theorem normal_end_means_complete `{Runtime} (prog arg : string) (n : Z) (w : World) :
  py_int arg = Some n →
  (main [prog; arg] w).1 = Ok tt →
  count is_read_ok (events_since w (run_script [prog; arg] w).2) = Z.to_nat n ∧
  count is_step_ok (events_since w (run_script [prog; arg] w).2) = Z.to_nat n ∧
  count is_step_failed (events_since w (run_script [prog; arg] w).2) = 0%nat ∧
  (∃ texts blocks,
     length blocks = Z.to_nat n ∧
     visited (Z.to_nat n) w = Some <$> texts ∧
     block <$> texts = Ok <$> blocks ∧
     content (run_script [prog; arg] w).2 "mbox"
       = content w "mbox" +:+ Str.concat blocks) ∧
  history (run_script [prog; arg] w).2 = drop (Z.to_nat n) (history w).
Proof.
  intros Hn. rewrite run_script_world, main_count, Hn. intros Hr.
  destruct (loop_run (py_range n) w)
    as (evs & texts & blocks & partial & Htr & Hcont & Hvis & Hblocks & Hend).
  rewrite (events_since_app _ _ _ Htr), length_py_range in *.
  destruct Hend as [(_ & -> & Hlen & Hreads & Hok & Hfail & _ & Hhist)
                   |[(Hr' & _)|([e Hr'] & _)]]; [|congruence..].
  split_and!; try done.
  exists texts, blocks. rewrite Hlen in Hvis. rewrite app_nil_r in Hcont.
  by split_and!.
Qed.

Lemma normal_end_means_complete_witness :
  count is_read_ok
    (events_since Example.three_revisions
       (run_script (H := Example.runtime) ["lkml-to-mbox.py"; "2"]
          Example.three_revisions).2) = Z.to_nat 2 ∧
  count is_step_ok
    (events_since Example.three_revisions
       (run_script (H := Example.runtime) ["lkml-to-mbox.py"; "2"]
          Example.three_revisions).2) = Z.to_nat 2 ∧
  count is_step_failed
    (events_since Example.three_revisions
       (run_script (H := Example.runtime) ["lkml-to-mbox.py"; "2"]
          Example.three_revisions).2) = 0%nat ∧
  (∃ texts blocks,
     length blocks = Z.to_nat 2 ∧
     visited (Z.to_nat 2) Example.three_revisions = Some <$> texts ∧
     block (H := Example.runtime) <$> texts = Ok <$> blocks ∧
     content
       (run_script (H := Example.runtime) ["lkml-to-mbox.py"; "2"]
          Example.three_revisions).2 "mbox"
       = content Example.three_revisions "mbox" +:+ Str.concat blocks) ∧
  history
    (run_script (H := Example.runtime) ["lkml-to-mbox.py"; "2"] Example.three_revisions).2
    = drop (Z.to_nat 2) (history Example.three_revisions).
Proof.
  apply (normal_end_means_complete (H := Example.runtime) "lkml-to-mbox.py" "2" 2
           Example.three_revisions).
  - reflexivity.
  - vm_compute. reflexivity.
Defined.

(** ** One run or two *)

Section split.
Context `{Runtime}.

(** The index of an iteration shows in the progress field only. *)
Lemma loop_body_indifferent (i i' : Z) (w1 w2 : World) :
  files w1 = files w2 → history w1 = history w2 → trace w1 = trace w2 →
  (loop_body i w1).1 = (loop_body i' w2).1 ∧
  files (loop_body i w1).2 = files (loop_body i' w2).2 ∧
  history (loop_body i w1).2 = history (loop_body i' w2).2 ∧
  trace (loop_body i w1).2 = trace (loop_body i' w2).2.
Proof.
  intros Hf Hh Ht. rewrite !loop_body_cases. unfold content. rewrite Hf, Hh, Ht.
  destruct (files w2 !! "m") as [text|]; [|done]. cbn zeta.
  destruct (generate_envelope_from (message_from_file text)); [|done].
  destruct (as_string (message_from_file text)); [|done].
  by destruct (history w2).
Qed.

Lemma loop_indifferent (l1 l2 : list Z) (w1 w2 : World) :
  length l1 = length l2 →
  files w1 = files w2 → history w1 = history w2 → trace w1 = trace w2 →
  (for_each l1 loop_body w1).1 = (for_each l2 loop_body w2).1 ∧
  files (for_each l1 loop_body w1).2 = files (for_each l2 loop_body w2).2 ∧
  history (for_each l1 loop_body w1).2 = history (for_each l2 loop_body w2).2 ∧
  trace (for_each l1 loop_body w1).2 = trace (for_each l2 loop_body w2).2.
Proof.
  revert l2 w1 w2. induction l1 as [|i l1 IH]; intros [|i' l2] w1 w2 Hlen Hf Hh Ht;
    try done.
  rewrite !for_each_cons.
  destruct (loop_body_indifferent i i' w1 w2 Hf Hh Ht) as (Hr & Hf' & Hh' & Ht').
  destruct (loop_body i w1) as [[[]|e] w1'], (loop_body i' w2) as [[[]|e'] w2'];
    cbn in Hr, Hf', Hh', Ht'; try done.
  apply IH; [by injection Hlen|done..].
Qed.

Lemma for_each_app {A} (l1 l2 : list A) (body : A → M unit) (w : World) :
  for_each (l1 ++ l2) body w =
    match for_each l1 body w with
    | (Ok _, w1) => for_each l2 body w1
    | (Raise e, w1) => (Raise e, w1)
    end.
Proof.
  revert w. induction l1 as [|x l1 IH]; intros w; [done|].
  cbn [app]. rewrite !for_each_cons. destruct (body x w) as [[[]|e] w']; [apply IH|done].
Qed.

Lemma py_range_add (a b : Z) :
  0 ≤ a → 0 ≤ b →
  py_range (a + b) = py_range a ++ (Z.of_nat <$> seq (Z.to_nat a) (Z.to_nat b)).
Proof.
  intros Ha Hb. unfold py_range.
  by rewrite Z2Nat.inj_add, seq_app, fmap_app by done.
Qed.

Lemma run_script_outcome (argv : list string) (w : World) :
  (run_script argv w).1 =
    match (main argv w).1 with
    | Ok _ => Exited 0
    | Raise (SystemExit c) => Exited c
    | Raise e => Uncaught e
    end.
Proof. unfold run_script. destruct (main argv w) as [[[]|e] w']; [done|]. by destruct e. Qed.

End split.

(** X16: a run that ends normally can be continued: running the script
    for [a] messages and then for [b] more ends in the same way, with the
    same files, the same checkout and the same system calls as one run for
    [a + b] messages. *)
Theorem split_run `{Runtime} (prog sa sb sc : string) (a b : Z) (w : World) :
  py_int sa = Some a → py_int sb = Some b → py_int sc = Some (a + b) →
  0 ≤ a → 0 ≤ b →
  (main [prog; sa] w).1 = Ok tt →
  (run_script [prog; sb] (run_script [prog; sa] w).2).1 = (run_script [prog; sc] w).1 ∧
  files (run_script [prog; sb] (run_script [prog; sa] w).2).2
    = files (run_script [prog; sc] w).2 ∧
  history (run_script [prog; sb] (run_script [prog; sa] w).2).2
    = history (run_script [prog; sc] w).2 ∧
  trace (run_script [prog; sb] (run_script [prog; sa] w).2).2
    = trace (run_script [prog; sc] w).2.
Proof.
  intros Ha Hb Hc Hage Hbge. rewrite !run_script_outcome, !run_script_world.
  rewrite !main_count, Ha, Hb, Hc. intros Hfirst.
  rewrite (py_range_add a b Hage Hbge), for_each_app.
  destruct (for_each (py_range a) loop_body w) as [[[]|e] w1]; [|done]. cbn [snd fst].
  destruct (loop_indifferent (py_range b) (Z.of_nat <$> seq (Z.to_nat a) (Z.to_nat b)) w1 w1)
    as (-> & Hf & Hh & Ht); [|done..|done].
  by rewrite length_py_range, length_fmap, length_seq.
Qed.

Lemma split_run_witness :
  (run_script (H := Example.runtime) ["lkml-to-mbox.py"; "2"]
     (run_script (H := Example.runtime) ["lkml-to-mbox.py"; "1"]
        Example.three_revisions).2).1
    = (run_script (H := Example.runtime) ["lkml-to-mbox.py"; "3"]
         Example.three_revisions).1 ∧
  files (run_script (H := Example.runtime) ["lkml-to-mbox.py"; "2"]
           (run_script (H := Example.runtime) ["lkml-to-mbox.py"; "1"]
              Example.three_revisions).2).2
    = files (run_script (H := Example.runtime) ["lkml-to-mbox.py"; "3"]
               Example.three_revisions).2 ∧
  history (run_script (H := Example.runtime) ["lkml-to-mbox.py"; "2"]
             (run_script (H := Example.runtime) ["lkml-to-mbox.py"; "1"]
                Example.three_revisions).2).2
    = history (run_script (H := Example.runtime) ["lkml-to-mbox.py"; "3"]
                 Example.three_revisions).2 ∧
  trace (run_script (H := Example.runtime) ["lkml-to-mbox.py"; "2"]
           (run_script (H := Example.runtime) ["lkml-to-mbox.py"; "1"]
              Example.three_revisions).2).2
    = trace (run_script (H := Example.runtime) ["lkml-to-mbox.py"; "3"]
               Example.three_revisions).2.
Proof.
  apply (split_run (H := Example.runtime) "lkml-to-mbox.py" "1" "2" "3" 1 2
           Example.three_revisions).
  - reflexivity.
  - reflexivity.
  - reflexivity.
  - lia.
  - lia.
  - vm_compute. reflexivity.
Defined.
